(** * Open Eyes Vote: session / vote / user operations

    A shallow embedding of the two implementations that the repository
    contains of the same domain model:

    - [Server]: the Express + Mongoose backend of [src/app.js]
      (the routes under [/api]), and
    - [Local]: the localStorage application of [src/app-firebase.js].

    Collections are lists in insertion order, because both stores are
    searched for the first matching record ([findOne], [Array.find],
    [Array.findIndex]).  Dates are milliseconds since the epoch, in [Z];
    counters are JavaScript numbers used as integers, in [Z]. *)

From Stdlib Require Import String Ascii List ZArith Bool Lia.
From Equations Require Import Equations.
From Equations.Prop Require Import Logic.
Import ListNotations.

Local Open Scope string_scope.
Local Open Scope Z_scope.

(** ** Records *)

(** [userSchema] / the objects of [brewvote_users]. *)
Record User := mkUser {
  u_id : string;
  u_name : option string;
  u_employeeId : string;
  u_role : string
}.

(** [sessionSchema] / the objects of [brewvote_sessions].  [s_endTime] is
    [None] while the field is absent. *)
Record Session := mkSession {
  s_id : string;
  s_startTime : Z;
  s_endTime : option Z;
  s_isActive : bool;
  s_totalVotes : Z
}.

(** [voteSchema] / the objects of [brewvote_votes]. *)
Record Vote := mkVote {
  v_id : string;
  v_sessionId : string;
  v_userId : string;
  v_userName : option string;
  v_type : string;
  v_timestamp : Z
}.

(** ** JavaScript values of request fields

    A request field is either absent ([undefined]) or a string.  [truthy]
    is the test [if (x)] / [!x] on such a field: an absent field and the
    empty string are falsy. *)

Definition truthy (x : option string) : bool :=
  match x with
  | Some s => negb (String.eqb s "")
  | None => false
  end.

Definition str (x : option string) : string :=
  match x with
  | Some s => s
  | None => ""
  end.

Definition isSome {A : Type} (x : option A) : bool :=
  match x with
  | Some _ => true
  | None => false
  end.

(** ** Record updates used by both implementations *)

(** [{ isActive: false }] *)
Definition deactivate (s : Session) : Session :=
  mkSession (s_id s) (s_startTime s) (s_endTime s) false (s_totalVotes s).

(** [{ isActive: false, endTime: now }] *)
Definition ended (now : Z) (s : Session) : Session :=
  mkSession (s_id s) (s_startTime s) (Some now) false (s_totalVotes s).

(** [{ $inc: { totalVotes: 1 } }] and [totalVotes++] *)
Definition incVotes (s : Session) : Session :=
  mkSession (s_id s) (s_startTime s) (s_endTime s) (s_isActive s)
            (s_totalVotes s + 1).

Definition hasId (id : string) (s : Session) : bool := String.eqb (s_id s) id.

(** The first element satisfying [p] is replaced by its image under [f];
    a list without such an element is returned as it is. *)
Fixpoint updateFirst {A : Type} (p : A -> bool) (f : A -> A) (l : list A)
  : list A :=
  match l with
  | [] => []
  | x :: r => if p x then f x :: r else x :: updateFirst p f r
  end.

(** ** Observations the properties are stated with *)

(** Number of Vote records whose [sessionId] is [sid]. *)
Definition votesFor (sid : string) (vs : list Vote) : Z :=
  Z.of_nat (length (filter (fun v => String.eqb (v_sessionId v) sid) vs)).

(** The Vote records of the pair [(sid, uid)]. *)
Definition votesOf (sid uid : string) (vs : list Vote) : list Vote :=
  filter (fun v => String.eqb (v_sessionId v) sid
                   && String.eqb (v_userId v) uid) vs.

Definition activeSessions (ss : list Session) : list Session :=
  filter s_isActive ss.

Definition atMostOneActive (ss : list Session) : Prop :=
  (length (activeSessions ss) <= 1)%nat.

(** [totalVotes] of every session is the number of votes that reference it. *)
Definition countersSettled (ss : list Session) (vs : list Vote) : Prop :=
  forall s, In s ss -> s_totalVotes s = votesFor (s_id s) vs.

(** An identifier produced by [crypto.randomUUID()] is fresh for the
    session data when no session carries it and no vote refers to it. *)
Definition freshSessionId (id : string) (ss : list Session) (vs : list Vote)
  : bool :=
  negb (existsb (hasId id) ss)
  && negb (existsb (fun v => String.eqb (v_sessionId v) id) vs).

(** Session ids are pairwise distinct and every counter is settled. *)
Definition settled (ss : list Session) (vs : list Vote) : Prop :=
  NoDup (map s_id ss) /\ countersSettled ss vs.

Definition idAndCount (s : Session) : string * Z := (s_id s, s_totalVotes s).

(** Some User carries the employee code [e] / the id [id]. *)
Definition codeTaken (e : string) (us : list User) : bool :=
  existsb (fun u => String.eqb (u_employeeId u) e) us.

Definition idTaken (id : string) (us : list User) : bool :=
  existsb (fun u => String.eqb (u_id u) id) us.

(** * The backend of [src/app.js] *)

Module Server.

(** The three Mongoose models. *)
Record Db := mkDb {
  users : list User;
  sessions : list Session;
  votes : list Vote
}.

Definition setUsers (us : list User) (d : Db) : Db :=
  mkDb us (sessions d) (votes d).
Definition setSessions (ss : list Session) (d : Db) : Db :=
  mkDb (users d) ss (votes d).
Definition setVotes (vs : list Vote) (d : Db) : Db :=
  mkDb (users d) (sessions d) vs.

(** What [Model.create] throws: a schema validator failed, or a
    [unique: true] index already holds the key. *)
Inductive StoreError := ValidationError | DuplicateKey.

(** What a route sends: [res.json(body)], [res.status(code).json({error})],
    or the [catch (err)] branch [res.status(500).json({error: err.message})]. *)
Inductive Reply (A : Type) : Type :=
| Json (body : A)
| Status (code : Z) (error : string)
| Caught (err : StoreError).
Arguments Json {A} body.
Arguments Status {A} code error.
Arguments Caught {A} err.

Definition statusCode {A : Type} (r : Reply A) : Z :=
  match r with
  | Json _ => 200
  | Status code _ => code
  | Caught _ => 500
  end.

(** *** Mongoose primitives *)

Definition findOne {A : Type} (filter : A -> bool) (docs : list A) : option A :=
  find filter docs.

Definition updateMany {A : Type} (filter : A -> bool) (update : A -> A)
  (docs : list A) : list A :=
  map (fun x => if filter x then update x else x) docs.

(** With [{ new: true }] the updated document is returned, [null] when no
    document matches. *)
Definition findOneAndUpdate {A : Type} (filter : A -> bool) (update : A -> A)
  (docs : list A) : option A * list A :=
  (option_map update (findOne filter docs), updateFirst filter update docs).

(** [required: true] on a String path rejects the empty string. *)
Definition required (s : string) : bool := negb (String.eqb s "").

Definition enum (allowed : list string) (s : string) : bool :=
  existsb (String.eqb s) allowed.

Definition create {A : Type} (valid : A -> bool) (clash : A -> A -> bool)
  (doc : A) (docs : list A) : StoreError + list A :=
  if negb (valid doc) then inl ValidationError
  else if existsb (clash doc) docs then inl DuplicateKey
  else inr (docs ++ [doc])%list.

(** [userSchema]: [id] and [employeeId] required and unique, [role] in the enum. *)
Definition validUser (u : User) : bool :=
  required (u_id u) && required (u_employeeId u)
  && enum ["EMPLOYEE"; "ADMIN"] (u_role u).
Definition clashUser (u x : User) : bool :=
  String.eqb (u_id x) (u_id u) || String.eqb (u_employeeId x) (u_employeeId u).

(** [voteSchema]: [id], [sessionId], [userId] required, [id] unique,
    [type] in the enum. *)
Definition validVote (v : Vote) : bool :=
  required (v_id v) && required (v_sessionId v) && required (v_userId v)
  && enum ["COFFEE"; "TEA"] (v_type v).
Definition clashVote (v x : Vote) : bool := String.eqb (v_id x) (v_id v).

(** [sessionSchema]: [id] required and unique ([startTime] is always given). *)
Definition validSession (s : Session) : bool := required (s_id s).
Definition clashSession (s x : Session) : bool := String.eqb (s_id x) (s_id s).

(** *** Request bodies *)

Record LoginBody := mkLoginBody {
  lb_employeeId : option string;
  lb_name : option string;
  lb_role : option string
}.

Record VoteBody := mkVoteBody {
  vb_sessionId : option string;
  vb_userId : option string;
  vb_userName : option string;
  vb_type : option string
}.

Definition isAdmin (user : option User) : bool :=
  match user with
  | Some u => String.eqb (u_role u) "ADMIN"
  | None => false
  end.

(** *** Routes *)

(** [POST /api/init] *)
Definition init (d : Db) : Reply bool * Db :=
  match findOne (fun u => String.eqb (u_employeeId u) "ADM001") (users d) with
  | Some _ => (Json true, d)
  | None =>
      match create validUser clashUser
              (mkUser "admin-1" (Some "Event Manager") "ADM001" "ADMIN")
              (users d) with
      | inl e => (Caught e, d)
      | inr us => (Json true, setUsers us d)
      end
  end.

(** [POST /api/auth/login]; [uuid] is the value of [randomUUID()]. *)
Definition login (body : LoginBody) (uuid : string) (d : Db) : Reply User * Db :=
  if negb (truthy (lb_employeeId body)) then
    (Status 400 "Employee ID required", d)
  else
    let employeeId := str (lb_employeeId body) in
    let byCode (role : string) (u : User) :=
      String.eqb (u_employeeId u) employeeId && String.eqb (u_role u) role in
    if String.eqb (str (lb_role body)) "ADMIN" then
      match findOne (byCode "ADMIN") (users d) with
      | None => (Status 401 "Invalid admin credentials", d)
      | Some admin => (Json admin, d)
      end
    else
      let user := findOne (byCode "EMPLOYEE") (users d) in
      let registered :=
        if negb (isSome user) && truthy (lb_name body) then
          let newUser := mkUser uuid (lb_name body) employeeId "EMPLOYEE" in
          match create validUser clashUser newUser (users d) with
          | inl e => inl e
          | inr us => inr (Some newUser, setUsers us d)
          end
        else inr (user, d) in
      match registered with
      | inl e => (Caught e, d)
      | inr (None, d') =>
          (Status 401 "User not found. Please provide name for first login.", d')
      | inr (Some u, d') => (Json u, d')
      end.

(** [GET /api/sessions/active] with the query parameter [userId]. *)
Definition getActiveSession (userId : option string) (d : Db)
  : Reply (option Session) :=
  if truthy userId
     && negb (isAdmin (findOne (fun u => String.eqb (u_id u) (str userId))
                               (users d)))
  then Json None
  else Json (findOne s_isActive (sessions d)).

Section Routes.

(** [startSession] passes [req.query.userId] to the filter without testing
    it.  Whether a filter whose value is [undefined] matches every document
    or none is decided by the Mongoose and driver versions, which the
    repository does not pin; the model takes it as a parameter. *)
Variable undefinedMatchesAll : bool.

Definition byId (userId : option string) (u : User) : bool :=
  match userId with
  | Some id => String.eqb (u_id u) id
  | None => undefinedMatchesAll
  end.

(** [POST /api/sessions/start] *)
Definition startSession (userId : option string) (uuid : string) (now : Z)
  (d : Db) : Reply Session * Db :=
  let user := findOne (byId userId) (users d) in
  if negb (isAdmin user) then
    (Status 403 "Only admins can start sessions", d)
  else
    let d1 := setSessions (updateMany s_isActive deactivate (sessions d)) d in
    let newSession := mkSession uuid now None true 0 in
    match create validSession clashSession newSession (sessions d1) with
    | inl e => (Caught e, d1)
    | inr ss => (Json newSession, setSessions ss d1)
    end.

(** [POST /api/sessions/:id/end] *)
Definition endSession (id : string) (now : Z) (d : Db)
  : Reply (option Session) * Db :=
  let (session, ss) := findOneAndUpdate (hasId id) (ended now) (sessions d) in
  (Json session, setSessions ss d).

(** [POST /api/votes] *)
Definition castVote (body : VoteBody) (uuid : string) (now : Z) (d : Db)
  : Reply Vote * Db :=
  if negb (truthy (vb_sessionId body)) || negb (truthy (vb_userId body))
     || negb (truthy (vb_type body)) then
    (Status 400 "Missing required fields", d)
  else
    let sessionId := str (vb_sessionId body) in
    let userId := str (vb_userId body) in
    match findOne (fun v => String.eqb (v_sessionId v) sessionId
                            && String.eqb (v_userId v) userId) (votes d) with
    | Some _ => (Status 400 "User already voted in this session", d)
    | None =>
        let newVote := mkVote uuid sessionId userId (vb_userName body)
                              (str (vb_type body)) now in
        match create validVote clashVote newVote (votes d) with
        | inl e => (Caught e, d)
        | inr vs =>
            let d1 := setVotes vs d in
            (Json newVote,
             setSessions (snd (findOneAndUpdate (hasId sessionId) incVotes
                                                (sessions d1))) d1)
        end
    end.

(** *** Sequences of requests *)

Inductive Request :=
| Init
| Login (body : LoginBody) (uuid : string)
| GetActiveSession (userId : option string)
| StartSession (userId : option string) (uuid : string) (now : Z)
| EndSession (id : string) (now : Z)
| CastVote (body : VoteBody) (uuid : string) (now : Z).

Definition step (d : Db) (r : Request) : Db :=
  match r with
  | Init => snd (init d)
  | Login body uuid => snd (login body uuid d)
  | GetActiveSession _ => d
  | StartSession userId uuid now => snd (startSession userId uuid now d)
  | EndSession id now => snd (endSession id now d)
  | CastVote body uuid now => snd (castVote body uuid now d)
  end.

Definition run (d : Db) (rs : list Request) : Db := fold_left step rs d.

(** The identifiers generated along a run are fresh when they are drawn. *)
Fixpoint freshRun (d : Db) (rs : list Request) : bool :=
  match rs with
  | [] => true
  | r :: rs' =>
      match r with
      | StartSession _ uuid _ => freshSessionId uuid (sessions d) (votes d)
      | _ => true
      end && freshRun (step d r) rs'
  end.

End Routes.

Definition emptyDb : Db := mkDb [] [] [].

(** The body of an employee's login request. *)
Definition employeeRequest (e : string) (name role : option string)
  : LoginBody := mkLoginBody (Some e) name role.

End Server.

(** * The localStorage application of [src/app-firebase.js]

    Only the persisted collections and [app.user] / [app.loginMode] are
    state; the DOM, toasts, the chart and notifications are not modelled.
    A handler runs synchronously and is given one reading [now] of the
    clock for all its [new Date()] calls. *)

Module Local.

Definition SESSION_DURATION_MS : Z := 10 * 60 * 1000.

Definition ADMIN_USER : User :=
  mkUser "admin-1" (Some "Event Manager") "ADM001" "ADMIN".

Record State := mkState {
  users : list User;        (* brewvote_users *)
  sessions : list Session;  (* brewvote_sessions *)
  votes : list Vote;        (* brewvote_votes *)
  user : option User;       (* app.user, mirrored in brewvote_current_user *)
  loginMode : string        (* app.loginMode *)
}.

Definition setUsers (us : list User) (st : State) : State :=
  mkState us (sessions st) (votes st) (user st) (loginMode st).
Definition setSessions (ss : list Session) (st : State) : State :=
  mkState (users st) ss (votes st) (user st) (loginMode st).
Definition setVotes (vs : list Vote) (st : State) : State :=
  mkState (users st) (sessions st) vs (user st) (loginMode st).
Definition setUser (u : option User) (st : State) : State :=
  mkState (users st) (sessions st) (votes st) u (loginMode st).

(** [app.init] on an empty localStorage. *)
Definition initial : State := mkState [ADMIN_USER] [] [] None "EMPLOYEE".

(** [app.getActiveSession] *)
Definition getActiveSession (st : State) : option Session :=
  find s_isActive (sessions st).

(** The timer of [updateAdminUI]: [diff <= 0]. *)
Definition expired (now : Z) (s : Session) : bool :=
  (s_startTime s + SESSION_DURATION_MS) - now <=? 0.

(** The storage part of [app.endSession]: the first active session, if
    there is one, is written back ended. *)
Definition endActive (now : Z) (st : State) : State :=
  match find s_isActive (sessions st) with
  | Some _ => setSessions (updateFirst s_isActive (ended now) (sessions st)) st
  | None => st
  end.

(** [app.endSession], which ends with [app.updateAdminUI()]; that refresh
    calls [app.endSession()] again when the session it then finds active
    has run out. *)
Equations? endSession (now : Z) (st : State) : State
  by wf (length (activeSessions (sessions st))) lt :=
endSession now st with inspect (getActiveSession (endActive now st)) := {
  | exist _ (Some session) _ =>
      if expired now session then endSession now (endActive now st)
      else endActive now st
  | exist _ None _ => endActive now st }.
Proof.
  unfold getActiveSession, endActive in *.
  destruct (find s_isActive (sessions st)) as [a|] eqn:Ha; [|congruence].
  clear - Ha. simpl. unfold activeSessions.
  induction (sessions st) as [|x r IH]; simpl in *; [discriminate|].
  destruct (s_isActive x) eqn:Hx; simpl.
  - lia.
  - rewrite Hx. auto.
Qed.

(** [app.updateAdminUI], as far as it acts on the store. *)
Definition updateAdminUI (now : Z) (st : State) : State :=
  match getActiveSession st with
  | Some session => if expired now session then endSession now st else st
  | None => st
  end.

(** [app.startSession]; [uuid] is the value of [crypto.randomUUID()]. *)
Definition startSession (uuid : string) (now : Z) (st : State) : State :=
  let newSession := mkSession uuid now None true 0 in
  updateAdminUI now (setSessions (newSession :: map deactivate (sessions st)) st).

Inductive VoteOutcome :=
| VoteCast (v : Vote)
| NoActiveSession           (* [if (!session) return] *)
| NoUser.                   (* [app.user.id] on [null] throws *)

(** [app.castVote] *)
Definition castVote (type : string) (uuid : string) (now : Z) (st : State)
  : VoteOutcome * State :=
  match getActiveSession st with
  | None => (NoActiveSession, st)
  | Some session =>
      match user st with
      | None => (NoUser, st)
      | Some u =>
          let newVote :=
            mkVote uuid (s_id session) (u_id u) (u_name u) type now in
          let st1 := setVotes (votes st ++ [newVote])%list st in
          (VoteCast newVote,
           setSessions (updateFirst (hasId (s_id session)) incVotes
                                    (sessions st1)) st1)
      end
  end.

(** [app.deleteSession]; [confirmed] is the answer to [confirm(...)]. *)
Definition deleteSession (sessionId : string) (confirmed : bool) (now : Z)
  (st : State) : State :=
  if negb confirmed then st
  else
    let updatedSessions :=
      filter (fun s => negb (String.eqb (s_id s) sessionId)) (sessions st) in
    let updatedVotes :=
      filter (fun v => negb (String.eqb (v_sessionId v) sessionId)) (votes st) in
    updateAdminUI now (setVotes updatedVotes (setSessions updatedSessions st)).

(** [app.navigate]: the admin dashboard is refreshed when it is shown. *)
Definition navigate (now : Z) (st : State) : State :=
  match user st with
  | Some u => if String.eqb (u_role u) "ADMIN" then updateAdminUI now st else st
  | None => st
  end.

Inductive LoginOutcome :=
| LoggedIn (u : User)
| LoginError                (* [login-error] is shown *)
| Ignored.                  (* [if (!id) return] *)

(** [app.handleLogin]; [id] and [name] are the values of the two inputs. *)
Definition handleLogin (id name : string) (uuid : string) (now : Z) (st : State)
  : LoginOutcome * State :=
  if negb (truthy (Some id)) then (Ignored, st)
  else if String.eqb (loginMode st) "ADMIN" then
    if String.eqb id "oe10" then
      (LoggedIn ADMIN_USER, navigate now (setUser (Some ADMIN_USER) st))
    else (LoginError, st)
  else
    let found := find (fun u => String.eqb (u_employeeId u) id) (users st) in
    let '(found', st1) :=
      if negb (isSome found) && truthy (Some name) then
        let newUser := mkUser uuid (Some name) id "EMPLOYEE" in
        (Some newUser, setUsers (users st ++ [newUser])%list st)
      else (found, st) in
    match found' with
    | Some u => (LoggedIn u, navigate now (setUser (Some u) st1))
    | None => (LoginError, st1)
    end.

Definition setLoginMode (mode : string) (st : State) : State :=
  mkState (users st) (sessions st) (votes st) (user st) mode.

Definition logout (st : State) : State := setUser None st.

(** [app.init] when the page is loaded again over an initialised
    localStorage: [app.loginMode] starts as EMPLOYEE, [app.user] is read
    back from [brewvote_current_user] and its view is shown. *)
Definition init (now : Z) (st : State) : State :=
  navigate now (setLoginMode "EMPLOYEE" st).

(** *** Sequences of user actions and timer ticks *)

Inductive Action :=
| SetLoginMode (mode : string)
| HandleLogin (id name : string) (uuid : string) (now : Z)
| Logout
| CastVote (type : string) (uuid : string) (now : Z)
| StartSession (uuid : string) (now : Z)
| EndSession (now : Z)
| DeleteSession (sessionId : string) (confirmed : bool) (now : Z)
| UpdateAdminUI (now : Z)        (* the one-second poll *)
| Init (now : Z).                (* the page is loaded again *)

Definition step (st : State) (a : Action) : State :=
  match a with
  | SetLoginMode mode => setLoginMode mode st
  | HandleLogin id name uuid now => snd (handleLogin id name uuid now st)
  | Logout => logout st
  | CastVote type uuid now => snd (castVote type uuid now st)
  | StartSession uuid now => startSession uuid now st
  | EndSession now => endSession now st
  | DeleteSession sessionId confirmed now =>
      deleteSession sessionId confirmed now st
  | UpdateAdminUI now => updateAdminUI now st
  | Init now => init now st
  end.

Definition run (st : State) (acts : list Action) : State :=
  fold_left step acts st.

Fixpoint freshRun (st : State) (acts : list Action) : bool :=
  match acts with
  | [] => true
  | a :: acts' =>
      match a with
      | StartSession uuid _ => freshSessionId uuid (sessions st) (votes st)
      | _ => true
      end && freshRun (step st a) acts'
  end.

Definition storeSettled (st : State) : Prop :=
  settled (sessions st) (votes st).

End Local.

(** * Views computed from the collections *)

(** [votes.filter(v => v.type === type).length] *)
Definition countType (type : string) (vs : list Vote) : Z :=
  Z.of_nat (length (filter (fun v => String.eqb (v_type v) type) vs)).

(** [votes.filter(v => v.sessionId === sid)] *)
Definition sessionVotes (sid : string) (vs : list Vote) : list Vote :=
  filter (fun v => String.eqb (v_sessionId v) sid) vs.

(** The three states of the employee dashboard. *)
Inductive EmployeePanel :=
| Waiting
| Voting
| Voted (type : string).

(** [employees.filter(u => !votedIds.has(u.id))], where [votedIds] is the
    set of the [userId]s of the session's votes. *)
Definition pendingUsers (users : list User) (votes : list Vote) : list User :=
  filter (fun u => negb (existsb (fun v => String.eqb (v_userId v) (u_id u))
                                 votes))
         (filter (fun u => String.eqb (u_role u) "EMPLOYEE") users).

(** [m = Math.floor(diff / 60000)], [s = Math.floor((diff % 60000) / 1000)] *)
Definition timer (diff : Z) : Z * Z :=
  (diff / 60000, Z.rem diff 60000 / 1000).

(** * The read routes of the backend *)

Module ServerReads.
Import Server.

(** [GET /api/users] *)
Definition getUsers (d : Db) : Reply (list User) := Json (users d).

(** [GET /api/votes] *)
Definition getVotes (d : Db) : Reply (list Vote) := Json (votes d).

(** [GET /api/votes/session/:sessionId] *)
Definition getVotesBySession (sessionId : string) (d : Db) : Reply (list Vote) :=
  Json (sessionVotes sessionId (votes d)).

Record Stats := mkStats {
  coffeeTotal : Z;
  teaTotal : Z;
  totalVotes : Z
}.

(** [GET /api/stats] *)
Definition getStats (d : Db) : Reply Stats :=
  Json (mkStats (countType "COFFEE" (votes d)) (countType "TEA" (votes d))
                (Z.of_nat (length (votes d)))).

End ServerReads.

(** * What the backend keeps true of its collections *)

(** Every stored vote passed the validators of [voteSchema], and no pair
    of session and user has two votes. *)
Definition votesKept (vs : list Vote) : Prop :=
  (forall v, In v vs -> Server.validVote v = true)
  /\ (forall sid uid, (length (votesOf sid uid vs) <= 1)%nat).

(** The administrator that [POST /api/init] seeds. *)
Definition seededAdmin : User :=
  mkUser "admin-1" (Some "Event Manager") "ADM001" "ADMIN".

(** Ids and employee codes are pairwise distinct, every user passed the
    validators of [userSchema], and the only user with the role ADMIN is
    the seeded one. *)
Definition usersKept (us : list User) : Prop :=
  NoDup (map u_id us) /\ NoDup (map u_employeeId us)
  /\ (forall u, In u us -> Server.validUser u = true)
  /\ (forall u, In u us -> u_role u = "ADMIN" -> u = seededAdmin).

(** How the record at one place of the sessions collection can change:
    its id and start time stay, it does not become active again, and its
    counter does not go down. *)
Definition evolves (s s' : Session) : Prop :=
  s_id s' = s_id s /\ s_startTime s' = s_startTime s
  /\ (s_isActive s = false -> s_isActive s' = false)
  /\ s_totalVotes s <= s_totalVotes s'.

(** * The request lines of the web client

    [api.request] hands [API_BASE_URL ++ endpoint] to [fetch], which
    parses it as a URL before it sends the request; Express then matches
    the path of the request against its route patterns and decodes the
    parameter.  The endpoints of [api.sessions.end] and
    [api.votes.getBySession] carry the session id as it is, so the id
    decides where the request arrives.  Strings are read as UTF-8 text. *)

Module Http.

Definition API_BASE_URL : string := "http://localhost:5000/api".

(** The endpoints of [api.sessions.end] and [api.votes.getBySession],
    and the [url] of [api.request]. *)
Definition endEndpoint (id : string) : string := "/sessions/" ++ id ++ "/end".

Definition bySessionEndpoint (sessionId : string) : string :=
  "/votes/session/" ++ sessionId.

Definition url (endpoint : string) : string := API_BASE_URL ++ endpoint.

(** ** The URL parser of [fetch] *)

Definition code (c : ascii) : Z := Z.of_N (N_of_ascii c).

Definition isCode (n : Z) (c : ascii) : bool := code c =? n.

Definition between (lo hi : Z) (c : ascii) : bool :=
  (lo <=? code c) && (code c <=? hi).

(** Tabs and newlines are removed from the input before it is parsed. *)
Definition isTabOrNewline (c : ascii) : bool :=
  isCode 9 c || isCode 10 c || isCode 13 c.

Fixpoint removeTabsAndNewlines (s : string) : string :=
  match s with
  | EmptyString => EmptyString
  | String c rest =>
      if isTabOrNewline c then removeTabsAndNewlines rest
      else String c (removeTabsAndNewlines rest)
  end.

(** [/] and, the scheme being http, [\] end a path segment. *)
Definition isSlash (c : ascii) : bool := isCode 47 c || isCode 92 c.

(** The path percent-encode set: the C0 controls, everything above [~],
    and space, the double quote, [#], [<], [>], [?], [^], the backquote,
    [{] and [}].  [%] is not in it. *)
Definition inPathEncodeSet (c : ascii) : bool :=
  (code c <=? 31) || (127 <=? code c)
  || existsb (fun n => isCode n c) [32; 34; 35; 60; 62; 63; 94; 96; 123; 125].

Definition hexDigit (n : Z) : ascii :=
  ascii_of_N (Z.to_N (if n <? 10 then 48 + n else 55 + n)).

Definition percentEncode (c : ascii) : string :=
  if inPathEncodeSet c then
    String "%" (String (hexDigit (code c / 16))
                       (String (hexDigit (code c mod 16)) EmptyString))
  else String c EmptyString.

Definition lowerChar (c : ascii) : ascii :=
  if between 65 90 c then ascii_of_N (Z.to_N (code c + 32)) else c.

Fixpoint lower (s : string) : string :=
  match s with
  | EmptyString => EmptyString
  | String c rest => String (lowerChar c) (lower rest)
  end.

Definition isSingleDot (buffer : string) : bool :=
  existsb (String.eqb (lower buffer)) ["."; "%2e"].

Definition isDoubleDot (buffer : string) : bool :=
  existsb (String.eqb (lower buffer)) [".."; ".%2e"; "%2e."; "%2e%2e"].

(** What the path state does with its buffer at [/], [?], [#] and at the
    end of the input; [slash] says that it stands at a [/]. *)
Definition closeSegment (path : list string) (buffer : string) (slash : bool)
  : list string :=
  if isDoubleDot buffer then
    if slash then removelast path else (removelast path ++ [""])%list
  else if isSingleDot buffer then
    if slash then path else (path ++ [""])%list
  else (path ++ [buffer])%list.

(** The path state.  The query and the fragment that follow a [?] or a
    [#] are not part of the path. *)
Fixpoint pathState (path : list string) (buffer : string) (input : string)
  : list string :=
  match input with
  | EmptyString => closeSegment path buffer false
  | String c rest =>
      if isSlash c then pathState (closeSegment path buffer true) "" rest
      else if isCode 63 c || isCode 35 c then closeSegment path buffer false
      else pathState path (buffer ++ percentEncode c) rest
  end.

Fixpoint drop (n : nat) (s : string) : string :=
  match n, s with
  | S n', String _ rest => drop n' rest
  | _, _ => s
  end.

(** The segments of the path of a URL that starts with the scheme, host
    and port of [API_BASE_URL], which are 21 characters; the slash after
    them starts the path. *)
Definition pathOf (url : string) : list string :=
  match drop 21 (removeTabsAndNewlines url) with
  | String c rest =>
      if isSlash c then pathState [] "" rest
      else pathState [] "" (String c rest)
  | EmptyString => [""]
  end.

(** ** [decodeURIComponent], which Express applies to a parameter *)

Definition hexValue (c : ascii) : option Z :=
  if between 48 57 c then Some (code c - 48)
  else if between 65 70 c then Some (code c - 55)
  else if between 97 102 c then Some (code c - 87)
  else None.

(** The escapes replaced by their octets; [None] when a [%] is not
    followed by two hexadecimal digits. *)
Fixpoint unescape (s : string) : option string :=
  match s with
  | EmptyString => Some EmptyString
  | String c rest =>
      if isCode 37 c then
        match rest with
        | String h (String l rest') =>
            match hexValue h, hexValue l, unescape rest' with
            | Some x, Some y, Some t =>
                Some (String (ascii_of_N (Z.to_N (16 * x + y))) t)
            | _, _, _ => None
            end
        | _ => None
        end
      else option_map (String c) (unescape rest)
  end.

Definition continuation (c : ascii) : bool := between 128 191 c.

(** Well-formed UTF-8. *)
Fixpoint utf8 (s : string) : bool :=
  match s with
  | EmptyString => true
  | String a r =>
      if between 0 127 a then utf8 r
      else
        match r with
        | String b r1 =>
            if between 194 223 a then continuation b && utf8 r1
            else
              match r1 with
              | String c r2 =>
                  if (isCode 224 a && between 160 191 b)
                     || (between 225 236 a && continuation b)
                     || (isCode 237 a && between 128 159 b)
                     || (between 238 239 a && continuation b)
                  then continuation c && utf8 r2
                  else
                    match r2 with
                    | String d r3 =>
                        ((isCode 240 a && between 144 191 b)
                         || (between 241 243 a && continuation b)
                         || (isCode 244 a && between 128 143 b))
                        && continuation c && continuation d && utf8 r3
                    | EmptyString => false
                    end
              | EmptyString => false
              end
        | EmptyString => false
        end
  end.

(** [None] is the URIError. *)
Definition decodeURIComponent (s : string) : option string :=
  match unescape s with
  | Some t => if utf8 t then Some t else None
  | None => None
  end.

(** ** The routes of the backend *)

(** Routing is not case sensitive. *)
Fixpoint names (pattern segments : list string) : bool :=
  match pattern, segments with
  | [], [] => true
  | p :: ps, s :: ss => String.eqb p (lower s) && names ps ss
  | _, _ => false
  end.

(** Routing is not strict: one slash at the end of the path is allowed. *)
Definition withoutLastSlash (segments : list string) : list string :=
  match rev segments with
  | EmptyString :: r => rev r
  | _ => segments
  end.

(** A parameter is a segment that is not empty, decoded. *)
Definition param {A : Type} (raw : string) (found : string -> A)
  (badParam noRoute : A) : A :=
  if String.eqb raw "" then noRoute
  else match decodeURIComponent raw with
       | Some value => found value
       | None => badParam
       end.

(** Where a POST arrives. *)
Inductive PostArrival :=
| AtEnd (id : string)     (* [/api/sessions/:id/end], with [req.params.id] *)
| AtInit                  (* [/api/init] *)
| AtLogin                 (* [/api/auth/login] *)
| AtStart                 (* [/api/sessions/start] *)
| AtVotes                 (* [/api/votes] *)
| PostBadParam            (* a parameter that does not decode: 400 *)
| PostNoRoute.            (* 404 *)

(** The patterns of [app.post]; no path matches two of them. *)
Definition routePost (segments : list string) : PostArrival :=
  let path := withoutLastSlash segments in
  if names ["api"; "init"] path then AtInit
  else if names ["api"; "auth"; "login"] path then AtLogin
  else if names ["api"; "sessions"; "start"] path then AtStart
  else if names ["api"; "votes"] path then AtVotes
  else
    match path with
    | [a; b; id; e] =>
        if names ["api"; "sessions"; "end"] [a; b; e]
        then param id AtEnd PostBadParam PostNoRoute
        else PostNoRoute
    | _ => PostNoRoute
    end.

(** Where a GET arrives. *)
Inductive GetArrival :=
| AtUsers                            (* [/api/users] *)
| AtSessions                         (* [/api/sessions] *)
| AtActive                           (* [/api/sessions/active] *)
| AtAllVotes                         (* [/api/votes] *)
| AtVotesBySession (sessionId : string)
                                     (* [/api/votes/session/:sessionId] *)
| AtStats                            (* [/api/stats] *)
| GetBadParam
| GetNoRoute.

(** The patterns of [app.get]; no path matches two of them. *)
Definition routeGet (segments : list string) : GetArrival :=
  let path := withoutLastSlash segments in
  if names ["api"; "users"] path then AtUsers
  else if names ["api"; "sessions"] path then AtSessions
  else if names ["api"; "sessions"; "active"] path then AtActive
  else if names ["api"; "votes"] path then AtAllVotes
  else if names ["api"; "stats"] path then AtStats
  else
    match path with
    | [a; b; c; sessionId] =>
        if names ["api"; "votes"; "session"] [a; b; c]
        then param sessionId AtVotesBySession GetBadParam GetNoRoute
        else GetNoRoute
    | _ => GetNoRoute
    end.

(** Where the requests of [api.sessions.end(id)] and of
    [api.votes.getBySession(sessionId)] arrive. *)
Definition endArrival (id : string) : PostArrival :=
  routePost (pathOf (url (endEndpoint id))).

Definition bySessionArrival (sessionId : string) : GetArrival :=
  routeGet (pathOf (url (bySessionEndpoint sessionId))).

(** A character that the URL parser copies and [decodeURIComponent]
    keeps: printable ASCII that neither ends a segment, nor starts an
    escape, nor is percent-encoded. *)
Definition plain (c : ascii) : bool :=
  between 33 126 c && negb (isSlash c) && negb (isCode 37 c)
  && negb (inPathEncodeSet c).

Fixpoint allPlain (s : string) : bool :=
  match s with
  | EmptyString => true
  | String c rest => plain c && allPlain rest
  end.

(** An id that is one segment of the path as it stands: not empty, made
    of plain characters, and neither [.] nor [..].  What
    [crypto.randomUUID()] returns is of this kind. *)
Definition pathSafe (id : string) : bool :=
  allPlain id && negb (existsb (String.eqb id) [""; "."; ".."]).

End Http.

(** * The web client of [src/app.js]

    A handler is modelled by the requests it awaits, answered one after
    the other by the routes of [Server]; requests of other clients do not
    come in between.  A request whose endpoint carries a session id
    arrives where [Http] says.  The calls a handler starts without
    awaiting them ([app.updateAdminUI()], [app.renderHistory()],
    [app.checkEmployeeStatus()] at its end) are runs of those handlers. *)

Module Client.
Import Server.

(** What [api.request] throws when the response is not ok:
    [new Error(error.error || 'API Error')], or the SyntaxError of
    [response.json()] when the body is the HTML page that Express writes
    for a 400 or a 404 of its own. *)
Inductive ApiError :=
| ErrorMessage (msg : string)
| StoreMessage (err : StoreError)
| NotJson.

Definition request {A : Type} (r : Reply A) : ApiError + A :=
  match r with
  | Json body => inr body
  | Status _ error =>
      inl (ErrorMessage (if String.eqb error "" then "API Error" else error))
  | Caught err => inl (StoreMessage err)
  end.

(** What the handler shows when it is done. *)
Inductive Shown :=
| Nothing                       (* it returned early *)
| SuccessToast (msg : string)
| InfoToast (msg : string)
| ErrorToast (e : ApiError)     (* [showToast(err.message, 'error')] *)
| TypeErrorToast.               (* reading [app.user.id] of [null] *)

(** [api.sessions.getActive]: it takes no parameter, so the argument of
    [getActive({ userId })] is dropped and the request has no query. *)
Definition getActive (d : Db) : ApiError + option Session :=
  request (getActiveSession None d).

(** [app.castVote] *)
Definition castVote (user : option User) (type : string) (uuid : string)
  (now : Z) (d : Db) : Shown * Db :=
  match getActive d with
  | inl e => (ErrorToast e, d)
  | inr None => (Nothing, d)
  | inr (Some session) =>
      match user with
      | None => (TypeErrorToast, d)
      | Some u =>
          let body := mkVoteBody (Some (s_id session)) (Some (u_id u))
                                 (u_name u) (Some type) in
          let (reply, d') := Server.castVote body uuid now d in
          match request reply with
          | inl e => (ErrorToast e, d')
          | inr _ => (SuccessToast "Vote Cast Successfully!", d')
          end
      end
  end.

(** How [app.endSession] comes out.  When the id leads the request of
    [api.sessions.end] to the login, start or vote route, that route
    answers a request that has no body and, for the start route, the
    query that the id carried; what the body parser and the query parser
    make of these is not fixed by the repository, and the outcome names
    the route. *)
Inductive EndOutcome :=
| Shows (shown : Shown) (d : Db)
| Misrouted (route : Http.PostArrival).

(** [app.endSession] *)
Definition endSession (now : Z) (d : Db) : EndOutcome :=
  match getActive d with
  | inl e => Shows (ErrorToast e) d
  | inr None => Shows (InfoToast "Session Ended") d
  | inr (Some session) =>
      match Http.endArrival (s_id session) with
      | Http.AtEnd id =>
          let (reply, d') := Server.endSession id now d in
          match request reply with
          | inl e => Shows (ErrorToast e) d'
          | inr _ => Shows (InfoToast "Session Ended") d'
          end
      | Http.AtInit =>
          let (reply, d') := Server.init d in
          match request reply with
          | inl e => Shows (ErrorToast e) d'
          | inr _ => Shows (InfoToast "Session Ended") d'
          end
      | Http.PostBadParam | Http.PostNoRoute => Shows (ErrorToast NotJson) d
      | route => Misrouted route
      end
  end.

(** [app.startSession]: [api.sessions.start] sends no [userId];
    [undefinedMatchesAll] is the parameter of [Server.startSession]. *)
Definition startSession (undefinedMatchesAll : bool) (uuid : string) (now : Z)
  (d : Db) : Shown * Db :=
  let (reply, d') := Server.startSession undefinedMatchesAll None uuid now d in
  match request reply with
  | inl e => (ErrorToast e, d')
  | inr _ => (SuccessToast "Session Started!", d')
  end.

(** [votes.find(v => v.userId === app.user.id)] and the panel it
    selects. *)
Definition panelOf (u : User) (votes : list Vote) : EmployeePanel :=
  match find (fun v => String.eqb (v_userId v) (u_id u)) votes with
  | Some myVote => Voted (v_type myVote)
  | None => Voting
  end.

(** The panel after [api.votes.getBySession(session.id)].  The users
    and the sessions are arrays of documents without a [userId], in which
    nothing is found; the answers of the other two routes are no arrays,
    and the TypeError of [votes.find], like an error of the request, is
    only logged. *)
Definition panelBySession (u : User) (shown : EmployeePanel)
  (sessionId : string) (d : Db) : EmployeePanel :=
  match Http.bySessionArrival sessionId with
  | Http.AtVotesBySession sessionId' =>
      match request (ServerReads.getVotesBySession sessionId' d) with
      | inl _ => shown
      | inr votes => panelOf u votes
      end
  | Http.AtAllVotes =>
      match request (ServerReads.getVotes d) with
      | inl _ => shown
      | inr votes => panelOf u votes
      end
  | Http.AtUsers | Http.AtSessions => Voting
  | Http.AtActive | Http.AtStats | Http.GetBadParam | Http.GetNoRoute => shown
  end.

(** [app.checkEmployeeStatus]: the panel shown, whether the start of
    voting was announced, and the new [app.lastSessionId].  [shown] is
    the panel on screen before; it stays when [app.user] is [null] and
    the handler only logs the TypeError. *)
Definition checkEmployeeStatus (user : option User) (shown : EmployeePanel)
  (lastSessionId : option string) (d : Db)
  : EmployeePanel * bool * option string :=
  match user with
  | None => (shown, false, lastSessionId)
  | Some u =>
      match getActive d with
      | inl _ => (shown, false, lastSessionId)
      | inr session =>
          let announced :=
            String.eqb (u_role u) "ADMIN"
            && match session, lastSessionId with
               | Some s, Some l => negb (String.eqb (s_id s) l)
               | _, _ => false
               end in
          let panel :=
            match session with
            | None => Waiting
            | Some s => panelBySession u shown (s_id s) d
            end in
          (panel, announced, option_map s_id session)
      end
  end.

(** What [app.navigate] shows. *)
Inductive Screen :=
| LoginView
| AdminView
| EmployeeView (panel : EmployeePanel) (polling : bool).

(** [app.initEmployeeDashboard]: the panel and whether the five-second
    poll of [checkEmployeeStatus] is started. *)
Definition initEmployeeDashboard (user : option User) (shown : EmployeePanel)
  (lastSessionId : option string) (d : Db) : EmployeePanel * bool :=
  match user with
  | Some u =>
      if String.eqb (u_role u) "ADMIN" then
        (fst (fst (checkEmployeeStatus user shown lastSessionId d)), true)
      else (Waiting, false)
  | None => (Waiting, false)
  end.

(** [app.navigate] *)
Definition navigate (user : option User) (shown : EmployeePanel)
  (lastSessionId : option string) (d : Db) : Screen :=
  match user with
  | None => LoginView
  | Some u =>
      if String.eqb (u_role u) "ADMIN" then AdminView
      else
        let (panel, polling) :=
          initEmployeeDashboard user shown lastSessionId d in
        EmployeeView panel polling
  end.

End Client.

(** * What the local application displays *)

Module LocalView.
Import Local.

(** [app.checkEmployeeStatus]: the panel shown ([None] when the search
    for the user's vote reads [app.user.id] of [null]), whether the start
    of voting was announced, and the new [app.lastSessionId]. *)
Definition checkEmployeeStatus (lastSessionId : option string) (st : State)
  : option EmployeePanel * bool * option string :=
  let session := getActiveSession st in
  let announced :=
    match session, lastSessionId with
    | Some s, Some l => negb (String.eqb (s_id s) l)
    | _, _ => false
    end in
  let panel :=
    match session with
    | None => Some Waiting
    | Some s =>
        match user st with
        | Some u =>
            match find (fun v => String.eqb (v_sessionId v) (s_id s)
                                 && String.eqb (v_userId v) (u_id u))
                       (votes st) with
            | Some myVote => Some (Voted (v_type myVote))
            | None => Some Voting
            end
        | None =>
            if existsb (fun v => String.eqb (v_sessionId v) (s_id s))
                       (votes st)
            then None else Some Voting
        end
    end in
  (panel, announced, option_map s_id session).

Record LiveStats := mkLiveStats {
  minutes : Z;
  seconds : Z;
  liveCoffee : Z;
  liveTea : Z;
  pending : list User
}.

Inductive AdminPanel :=
| Idle                          (* no session is active *)
| TimeUp                        (* [diff <= 0]: [app.endSession()] is called *)
| Live (stats : LiveStats).

Record AdminView := mkAdminView {
  totalCoffee : Z;
  totalTea : Z;
  panel : AdminPanel
}.

(** What [app.updateAdminUI] writes into the dashboard. *)
Definition adminView (now : Z) (st : State) : AdminView :=
  mkAdminView (countType "COFFEE" (votes st)) (countType "TEA" (votes st))
    match getActiveSession st with
    | None => Idle
    | Some session =>
        let diff := (s_startTime session + SESSION_DURATION_MS) - now in
        if diff <=? 0 then TimeUp
        else
          let sv := sessionVotes (s_id session) (votes st) in
          Live (mkLiveStats (fst (timer diff)) (snd (timer diff))
                            (countType "COFFEE" sv) (countType "TEA" sv)
                            (pendingUsers (users st) sv))
    end.

(** [app.renderChart]: the sessions charted, oldest first, and the two
    data series (the date labels are not modelled). *)
Definition recent (st : State) : list Session := rev (firstn 7 (sessions st)).

Definition dataOf (type : string) (st : State) : list Z :=
  map (fun s =>
         Z.of_nat (length (filter (fun v => String.eqb (v_sessionId v) (s_id s)
                                            && String.eqb (v_type v) type)
                                  (votes st))))
      (recent st).

(** [app.renderHistory]: a row per session that is not active, with its
    stored counter, its coffee and tea counts and its votes. *)
Record HistoryRow := mkHistoryRow {
  row_session : Session;
  row_totalVotes : Z;
  row_coffee : Z;
  row_tea : Z;
  row_votes : list Vote
}.

Definition historyRows (st : State) : list HistoryRow :=
  map (fun s =>
         let sVotes := sessionVotes (s_id s) (votes st) in
         mkHistoryRow s (s_totalVotes s) (countType "COFFEE" sVotes)
                      (countType "TEA" sVotes) sVotes)
      (filter (fun s => negb (s_isActive s)) (sessions st)).

End LocalView.

(** * Concrete stores and runs *)

Definition ann : User := mkUser "e1" (Some "Ann") "EMP1" "EMPLOYEE".

Definition annVote : Vote := mkVote "v1" "s1" "e1" (Some "Ann") "COFFEE" 3.

(** A server store with the seeded admin, one employee, one open session
    and the employee's vote in it. *)
Definition demoDb : Server.Db :=
  Server.mkDb [Local.ADMIN_USER; ann] [mkSession "s1" 0 None true 1] [annVote].

(** The same data in the local application, with the employee logged in. *)
Definition demoState : Local.State :=
  Local.mkState [Local.ADMIN_USER; ann] [mkSession "s1" 0 None true 1]
                [annVote] (Some ann) "EMPLOYEE".

(** [demoDb] and [demoState] after the session has been ended at time 10. *)
Definition endedDb : Server.Db :=
  Server.mkDb [Local.ADMIN_USER; ann] [mkSession "s1" 0 (Some 10) false 1]
              [annVote].

Definition endedState : Local.State :=
  Local.mkState [Local.ADMIN_USER; ann] [mkSession "s1" 0 (Some 10) false 1]
                [annVote] (Some Local.ADMIN_USER) "ADMIN".

(** A run of the server from the empty store: the admin is seeded, an
    employee registers, a session is started, voted in and ended, and a
    second session is started. *)
Definition demoRequests : list Server.Request :=
  [ Server.Init;
    Server.Login (Server.employeeRequest "EMP1" (Some "Ann") None) "e1";
    Server.StartSession (Some "admin-1") "s1" 0;
    Server.CastVote
      (Server.mkVoteBody (Some "s1") (Some "e1") (Some "Ann") (Some "COFFEE"))
      "v1" 3;
    Server.EndSession "s1" 9;
    Server.StartSession (Some "admin-1") "s2" 20 ].

(** The same story in the local application, followed by the deletion
    of the first session. *)
Definition demoActions : list Local.Action :=
  [ Local.SetLoginMode "ADMIN";
    Local.HandleLogin "oe10" "" "u0" 0;
    Local.StartSession "s1" 0;
    Local.Logout;
    Local.SetLoginMode "EMPLOYEE";
    Local.HandleLogin "EMP1" "Ann" "e1" 1;
    Local.CastVote "COFFEE" "v1" 3;
    Local.CastVote "TEA" "v2" 4;
    Local.EndSession 9;
    Local.StartSession "s2" 20;
    Local.DeleteSession "s1" true 30 ].

(** Requests that try to use the ended session of [endedDb] again. *)
Definition reopenRequests : list Server.Request :=
  [ Server.StartSession (Some "admin-1") "s1" 40;
    Server.CastVote
      (Server.mkVoteBody (Some "s1") (Some "admin-1") None (Some "TEA"))
      "v2" 41;
    Server.EndSession "s1" 42;
    Server.StartSession (Some "admin-1") "s2" 43 ].

(** A server store with an ended session and an active one. *)
Definition twoSessionsDb : Server.Db :=
  Server.mkDb [Local.ADMIN_USER; ann]
              [mkSession "s1" 0 (Some 10) false 1; mkSession "s2" 20 None true 0]
              [annVote].

(** A server store whose open session has an id with a slash in it. *)
Definition slashDb : Server.Db :=
  Server.mkDb [Local.ADMIN_USER] [mkSession "a/b" 0 None true 0] [].

(** The local application with an open session and nobody's vote yet. *)
Definition freshState : Local.State :=
  Local.mkState [Local.ADMIN_USER; ann] [mkSession "s1" 0 None true 0] []
                (Some ann) "EMPLOYEE".

(** The local application with three sessions marked active, as a store
    written by hand can be; the first two have run out at time 600010. *)
Definition overdueState : Local.State :=
  Local.mkState [Local.ADMIN_USER; ann]
                [mkSession "s1" 0 None true 1; mkSession "s2" 5 None true 0;
                 mkSession "s3" 100 None true 0]
                [annVote] (Some Local.ADMIN_USER) "ADMIN".

(** * List facts shared by the two implementations *)

Section UpdateFirst.

Context {A : Type} (p : A -> bool) (f : A -> A).

Lemma updateFirst_none (l : list A) :
  find p l = None -> updateFirst p f l = l.
Proof.
  induction l as [|x r IH]; simpl; [reflexivity|].
  destruct (p x); [discriminate|]. intros H. now rewrite IH.
Qed.


Lemma updateFirst_nth_other (l : list A) (i : nat) (x : A) :
  nth_error l i = Some x -> p x = false ->
  nth_error (updateFirst p f l) i = Some x.
Proof.
  revert i. induction l as [|a r IH]; intros [|i]; simpl; try discriminate.
  - intros [= ->] ->. reflexivity.
  - intros Hx Hp. destruct (p a); simpl; auto.
Qed.

End UpdateFirst.


Lemma find_filter_nil {A : Type} (p : A -> bool) (l : list A) :
  filter p l = [] -> find p l = None.
Proof.
  induction l as [|a r IH]; simpl; [reflexivity|].
  destruct (p a); [discriminate|auto].
Qed.

Lemma find_existsb_false {A : Type} (p : A -> bool) (l : list A) :
  existsb p l = false -> find p l = None.
Proof.
  induction l as [|a r IH]; simpl; [reflexivity|].
  destruct (p a); simpl; [discriminate|auto].
Qed.


(** ** Active sessions *)

Lemma active_updateFirst_le (p : Session -> bool) (f : Session -> Session)
  (ss : list Session) :
  (forall s, s_isActive (f s) = true -> s_isActive s = true) ->
  (length (activeSessions (updateFirst p f ss))
   <= length (activeSessions ss))%nat.
Proof.
  intros Hf. unfold activeSessions.
  induction ss as [|x r IH]; simpl; [lia|].
  destruct (p x); simpl.
  - destruct (s_isActive (f x)) eqn:Hfx.
    + rewrite (Hf _ Hfx). simpl. lia.
    + destruct (s_isActive x); simpl; lia.
  - destruct (s_isActive x); simpl; lia.
Qed.

Lemma active_map_deactivate (ss : list Session) :
  activeSessions (map deactivate ss) = [].
Proof. induction ss as [|x r IH]; simpl; auto. Qed.

Lemma active_filter_le (q : Session -> bool) (ss : list Session) :
  (length (activeSessions (filter q ss)) <= length (activeSessions ss))%nat.
Proof.
  unfold activeSessions. induction ss as [|x r IH]; simpl; [lia|].
  destruct (q x); simpl; destruct (s_isActive x); simpl; lia.
Qed.

Lemma active_app (ss ss' : list Session) :
  activeSessions (ss ++ ss') = (activeSessions ss ++ activeSessions ss')%list.
Proof. apply filter_app. Qed.

Lemma find_app_None {A : Type} (p : A -> bool) (l l' : list A) :
  find p l = None -> find p (l ++ l') = find p l'.
Proof.
  induction l as [|a r IH]; simpl; [reflexivity|].
  destruct (p a); [discriminate|auto].
Qed.

Lemma existsb_weaken {A : Type} (p q : A -> bool) (l : list A) :
  (forall x, q x = true -> p x = true) ->
  existsb p l = false -> existsb q l = false.
Proof.
  intros Hpq. induction l as [|a r IH]; simpl; [reflexivity|].
  destruct (p a) eqn:Hp; simpl; [discriminate|]. intros H.
  destruct (q a) eqn:Hq; simpl; [|auto].
  apply Hpq in Hq. congruence.
Qed.

Lemma find_updateFirst {A : Type} (p : A -> bool) (f : A -> A) (l : list A)
  (x : A) :
  find p l = Some x -> p (f x) = true ->
  find p (updateFirst p f l) = Some (f x).
Proof.
  induction l as [|a r IH]; simpl; [discriminate|].
  destruct (p a) eqn:Ha; simpl.
  - intros [= ->] ->. reflexivity.
  - rewrite Ha. exact IH.
Qed.

Lemma updateFirst_fixed {A : Type} (p : A -> bool) (f : A -> A) (l : list A)
  (x : A) :
  find p l = Some x -> f x = x -> updateFirst p f l = l.
Proof.
  induction l as [|a r IH]; simpl; [discriminate|].
  destruct (p a).
  - intros [= ->] ->. reflexivity.
  - intros Hx Hf. now rewrite IH.
Qed.

Lemma updateFirst_twice {A : Type} (p : A -> bool) (f g : A -> A) (l : list A) :
  (forall x, p (f x) = p x) -> (forall x, g (f x) = g x) ->
  updateFirst p g (updateFirst p f l) = updateFirst p g l.
Proof.
  intros Hp Hg. induction l as [|a r IH]; simpl; [reflexivity|].
  destruct (p a) eqn:Ha; simpl.
  - now rewrite Hp, Ha, Hg.
  - now rewrite Ha, IH.
Qed.

Lemma active_updateFirst_inactive (p : Session -> bool) (now : Z)
  (ss : list Session) (s : Session) :
  find p ss = Some s -> s_isActive s = false ->
  activeSessions (updateFirst p (ended now) ss) = activeSessions ss.
Proof.
  unfold activeSessions. induction ss as [|x r IH]; simpl; [discriminate|].
  destruct (p x); simpl.
  - intros [= ->] ->. reflexivity.
  - intros Hs Hi. destruct (s_isActive x); [f_equal|]; auto.
Qed.

Lemma ended_fixed (now : Z) (s : Session) :
  s_isActive s = false -> s_endTime s = Some now -> ended now s = s.
Proof. destruct s. simpl. now intros -> ->. Qed.

(** [app.endSession] is its storage part followed by [app.updateAdminUI()]. *)
Lemma loc_endSession_unfold (now : Z) (st : Local.State) :
  Local.endSession now st = Local.updateAdminUI now (Local.endActive now st).
Proof.
  unfold Local.updateAdminUI.
  funelim (Local.endSession now st); rewrite e; reflexivity.
Qed.

Lemma loc_endSession_idle (now : Z) (st : Local.State) :
  Local.getActiveSession st = None -> Local.endSession now st = st.
Proof.
  intros H.
  assert (Local.endActive now st = st) as E.
  { unfold Local.endActive. unfold Local.getActiveSession in H. now rewrite H. }
  funelim (Local.endSession now st); rewrite E in *; [congruence|reflexivity].
Qed.

(** * Facts about the counters *)

Lemma votesFor_app (sid : string) (vs ws : list Vote) :
  votesFor sid (vs ++ ws) = votesFor sid vs + votesFor sid ws.
Proof. unfold votesFor. rewrite filter_app, length_app. lia. Qed.

Lemma votesFor_one (sid : string) (v : Vote) :
  votesFor sid [v] = if String.eqb (v_sessionId v) sid then 1 else 0.
Proof. unfold votesFor. simpl. now destruct (String.eqb _ _). Qed.

Lemma votesFor_unreferenced (sid : string) (vs : list Vote) :
  existsb (fun v => String.eqb (v_sessionId v) sid) vs = false ->
  votesFor sid vs = 0.
Proof.
  unfold votesFor. induction vs as [|v r IH]; simpl; [reflexivity|].
  destruct (String.eqb _ _); simpl; [discriminate|exact IH].
Qed.

Lemma votesFor_delete_other (sid deleted : string) (vs : list Vote) :
  sid <> deleted ->
  votesFor sid
    (filter (fun v => negb (String.eqb (v_sessionId v) deleted)) vs)
  = votesFor sid vs.
Proof.
  intros Hne. unfold votesFor. f_equal. f_equal.
  induction vs as [|v r IH]; simpl; [reflexivity|].
  destruct (String.eqb (v_sessionId v) deleted) eqn:Hd; simpl.
  - apply String.eqb_eq in Hd.
    destruct (String.eqb (v_sessionId v) sid) eqn:Hs; [|exact IH].
    apply String.eqb_eq in Hs. congruence.
  - destruct (String.eqb (v_sessionId v) sid); [f_equal|]; exact IH.
Qed.

Lemma not_in_ids (id : string) (ss : list Session) :
  existsb (hasId id) ss = false -> ~ In id (map s_id ss).
Proof.
  induction ss as [|x r IH]; simpl; [tauto|].
  unfold hasId at 1. destruct (String.eqb (s_id x) id) eqn:E; simpl;
    [discriminate|].
  apply String.eqb_neq in E. intros H [H'|H']; [auto|]. now apply IH.
Qed.

Lemma fresh_spec (id : string) (ss : list Session) (vs : list Vote) :
  freshSessionId id ss vs = true ->
  ~ In id (map s_id ss) /\ votesFor id vs = 0.
Proof.
  unfold freshSessionId. intros H. apply andb_prop in H as [H1 H2].
  apply negb_true_iff in H1, H2. split.
  - now apply not_in_ids.
  - now apply votesFor_unreferenced.
Qed.

Lemma updateFirst_map {A B : Type} (g : A -> B) (p : A -> bool) (f : A -> A)
  (l : list A) :
  (forall x, g (f x) = g x) -> map g (updateFirst p f l) = map g l.
Proof.
  intros Hg. induction l as [|x r IH]; simpl; [reflexivity|].
  destruct (p x); simpl; [now rewrite Hg|now rewrite IH].
Qed.

Lemma updateMany_map {A B : Type} (g : A -> B) (p : A -> bool) (f : A -> A)
  (l : list A) :
  (forall x, g (f x) = g x) ->
  map g (Server.updateMany p f l) = map g l.
Proof.
  intros Hg. unfold Server.updateMany. rewrite map_map. apply map_ext.
  intros x. now destruct (p x).
Qed.

Lemma updateFirst_unique_id (sid : string) (f : Session -> Session)
  (ss : list Session) :
  NoDup (map s_id ss) ->
  updateFirst (hasId sid) f ss
  = map (fun s => if hasId sid s then f s else s) ss.
Proof.
  induction ss as [|x r IH]; simpl; [reflexivity|].
  intros Hnd. inversion Hnd as [|? ? Hx Hr]; subst.
  destruct (hasId sid x) eqn:Hid.
  - f_equal. rewrite <- (map_id r) at 1. apply map_ext_in.
    intros y Hy. destruct (hasId sid y) eqn:Hy'; [|reflexivity].
    unfold hasId in *. apply String.eqb_eq in Hid, Hy'.
    exfalso. apply Hx. rewrite Hid, <- Hy'. now apply in_map.
  - f_equal. now apply IH.
Qed.

Lemma settled_same_counts (ss ss' : list Session) (vs : list Vote) :
  map idAndCount ss' = map idAndCount ss -> settled ss vs -> settled ss' vs.
Proof.
  intros E [Hnd Hc]. split.
  - replace (map s_id ss') with (map fst (map idAndCount ss'))
      by (rewrite map_map; reflexivity).
    rewrite E, map_map. exact Hnd.
  - intros s' Hs'.
    assert (In (idAndCount s') (map idAndCount ss)) as Hin
      by (rewrite <- E; now apply in_map).
    apply in_map_iff in Hin as (s & Es & Hs).
    injection Es as Eid Etv. rewrite <- Eid, <- Etv. now apply Hc.
Qed.

Lemma settled_incVotes (sid : string) (v : Vote) (ss : list Session)
  (vs : list Vote) :
  v_sessionId v = sid -> settled ss vs ->
  settled (updateFirst (hasId sid) incVotes ss) (vs ++ [v]).
Proof.
  intros Hv [Hnd Hc]. split.
  - now rewrite updateFirst_map.
  - rewrite updateFirst_unique_id by exact Hnd.
    intros s' Hs'. apply in_map_iff in Hs' as (s & <- & Hs).
    rewrite votesFor_app, votesFor_one, Hv.
    unfold hasId. destruct (String.eqb (s_id s) sid) eqn:E; simpl.
    + apply String.eqb_eq in E. rewrite E, String.eqb_refl, <- E.
      now rewrite (Hc s Hs).
    + rewrite String.eqb_sym, E, (Hc s Hs). lia.
Qed.


Lemma settled_new_last (uuid : string) (now : Z) (ss : list Session)
  (vs : list Vote) :
  ~ In uuid (map s_id ss) -> votesFor uuid vs = 0 -> settled ss vs ->
  settled (ss ++ [mkSession uuid now None true 0]) vs.
Proof.
  intros Hid Hv [Hnd Hc]. split.
  - rewrite map_app. simpl. apply NoDup_app; [exact Hnd|repeat constructor; easy|].
    intros x Hx [<-|[]]. contradiction.
  - intros s Hs. apply in_app_or in Hs as [Hs|[<-|[]]]; [now apply Hc|].
    simpl. now rewrite Hv.
Qed.

Lemma settled_new_first (uuid : string) (now : Z) (ss : list Session)
  (vs : list Vote) :
  ~ In uuid (map s_id ss) -> votesFor uuid vs = 0 -> settled ss vs ->
  settled (mkSession uuid now None true 0 :: ss) vs.
Proof.
  intros Hid Hv [Hnd Hc]. split.
  - simpl. now constructor.
  - intros s [<-|Hs]; [simpl; now rewrite Hv|now apply Hc].
Qed.

Lemma NoDup_map_filter {A B : Type} (g : A -> B) (p : A -> bool) (l : list A) :
  NoDup (map g l) -> NoDup (map g (filter p l)).
Proof.
  induction l as [|x r IH]; simpl; [auto|].
  intros Hnd. inversion Hnd as [|? ? Hx Hr]; subst.
  destruct (p x); simpl; [|auto]. constructor; [|auto].
  intros Hin. apply Hx. apply in_map_iff in Hin as (y & Ey & Hy).
  apply filter_In in Hy as [Hy _]. rewrite <- Ey. now apply in_map.
Qed.

Lemma settled_delete (sid : string) (ss : list Session) (vs : list Vote) :
  settled ss vs ->
  settled (filter (fun s => negb (String.eqb (s_id s) sid)) ss)
          (filter (fun v => negb (String.eqb (v_sessionId v) sid)) vs).
Proof.
  intros [Hnd Hc]. split; [now apply NoDup_map_filter|].
  intros s Hs. apply filter_In in Hs as [Hs Hne].
  apply negb_true_iff, String.eqb_neq in Hne.
  rewrite votesFor_delete_other by exact Hne. now apply Hc.
Qed.

(** * Session lifecycle on the server *)

Module ServerFacts.
Import Server.

Lemma active_updateMany (ss : list Session) :
  activeSessions (updateMany s_isActive deactivate ss) = [].
Proof.
  unfold updateMany. induction ss as [|x r IH]; simpl; [reflexivity|].
  destruct (s_isActive x) eqn:Hx; simpl; [|rewrite Hx]; exact IH.
Qed.

Lemma srv_startSession_cases (b : bool) (userId : option string) (uuid : string)
  (now : Z) (d : Db) :
  let r := startSession b userId uuid now d in
  (sessions (snd r) = sessions d /\ fst r = Status 403 "Only admins can start sessions")
  \/ (sessions (snd r) = updateMany s_isActive deactivate (sessions d)
      /\ exists e, fst r = Caught e)
  \/ (sessions (snd r)
      = (updateMany s_isActive deactivate (sessions d)
         ++ [mkSession uuid now None true 0])%list
      /\ fst r = Json (mkSession uuid now None true 0)).
Proof.
  unfold startSession.
  destruct (negb (isAdmin _)); simpl; [auto|]. right.
  unfold create.
  destruct (negb (validSession _)); simpl; [left; eauto|].
  destruct (existsb _ _); simpl; [left; eauto|]. right. auto.
Qed.

Lemma srv_castVote_sessions (body : VoteBody) (uuid : string) (now : Z) (d : Db) :
  sessions (snd (castVote body uuid now d)) = sessions d
  \/ sessions (snd (castVote body uuid now d))
     = updateFirst (hasId (str (vb_sessionId body))) incVotes (sessions d).
Proof.
  unfold castVote.
  destruct (_ || _); simpl; [auto|].
  destruct (findOne _ _); simpl; [auto|].
  destruct (create _ _ _ _); simpl; auto.
Qed.

Lemma srv_init_sessions (d : Db) : sessions (snd (init d)) = sessions d.
Proof.
  unfold init. destruct (findOne _ _); simpl; [reflexivity|].
  destruct (create _ _ _ _); reflexivity.
Qed.

Lemma srv_login_sessions (body : LoginBody) (uuid : string) (d : Db) :
  sessions (snd (login body uuid d)) = sessions d.
Proof.
  unfold login.
  destruct (negb (truthy _)); simpl; [reflexivity|].
  destruct (String.eqb _ "ADMIN").
  - destruct (findOne _ _); reflexivity.
  - destruct (findOne _ _); simpl; [reflexivity|].
    destruct (truthy _); simpl; [|reflexivity].
    destruct (create _ _ _ _); reflexivity.
Qed.

Lemma srv_step_atMostOneActive (b : bool) (d : Db) (r : Request) :
  atMostOneActive (sessions d) -> atMostOneActive (sessions (step b d r)).
Proof.
  unfold atMostOneActive. intros H.
  destruct r as [|body uuid|userId|userId uuid now|id now|body uuid now]; simpl.
  - now rewrite srv_init_sessions.
  - now rewrite srv_login_sessions.
  - exact H.
  - destruct (srv_startSession_cases b userId uuid now d)
      as [[-> _]|[[-> _]|[-> _]]]; [exact H| |].
    + rewrite active_updateMany. simpl. lia.
    + rewrite active_app, active_updateMany. simpl. lia.
  - unfold endSession, findOneAndUpdate. simpl.
    etransitivity; [apply active_updateFirst_le|exact H].
    intros s. discriminate.
  - destruct (srv_castVote_sessions body uuid now d) as [->| ->]; [exact H|].
    etransitivity; [apply active_updateFirst_le|exact H].
    intros s. exact (fun E => E).
Qed.

Lemma srv_run_atMostOneActive (b : bool) (rs : list Request) (d : Db) :
  atMostOneActive (sessions d) -> atMostOneActive (sessions (run b d rs)).
Proof.
  revert d. induction rs as [|r rs IH]; intros d H; [exact H|].
  apply IH, srv_step_atMostOneActive, H.
Qed.

End ServerFacts.

(** * Session lifecycle in the local application *)

Module LocalFacts.
Import Local.

(** Whatever [endActive] preserves, the whole chain of [endSession] and
    [updateAdminUI] calls preserves. *)
Lemma endSession_closed (P : State -> Prop) (now : Z) :
  (forall st, P st -> P (endActive now st)) ->
  forall st, P st -> P (endSession now st).
Proof.
  intros HP st. funelim (endSession now st); intros Hst.
  - destruct (expired now session); [apply H|]; auto.
  - auto.
Qed.

Lemma updateAdminUI_closed (P : State -> Prop) (now : Z) :
  (forall st, P st -> P (endActive now st)) ->
  forall st, P st -> P (updateAdminUI now st).
Proof.
  intros HP st Hst. unfold updateAdminUI.
  destruct (getActiveSession st) as [s|]; [|exact Hst].
  destruct (expired now s); [|exact Hst].
  now apply endSession_closed.
Qed.

Lemma navigate_closed (P : State -> Prop) (now : Z) :
  (forall st, P st -> P (endActive now st)) ->
  forall st, P st -> P (navigate now st).
Proof.
  intros HP st Hst. unfold navigate.
  destruct (user st) as [u|]; [|exact Hst].
  destruct (String.eqb _ _); [|exact Hst].
  now apply updateAdminUI_closed.
Qed.

Lemma endActive_atMostOneActive (now : Z) (st : State) :
  atMostOneActive (sessions st) -> atMostOneActive (sessions (endActive now st)).
Proof.
  unfold atMostOneActive, endActive. intros H.
  destruct (find s_isActive (sessions st)); [|exact H]. simpl.
  etransitivity; [apply active_updateFirst_le|exact H].
  intros x. discriminate.
Qed.

Lemma not_expired_at_start (uuid : string) (now : Z) :
  expired now (mkSession uuid now None true 0) = false.
Proof.
  unfold expired, SESSION_DURATION_MS. simpl. apply Z.leb_gt. lia.
Qed.

Lemma loc_startSession_sessions (uuid : string) (now : Z) (st : State) :
  startSession uuid now st
  = setSessions (mkSession uuid now None true 0 :: map deactivate (sessions st)) st.
Proof.
  unfold startSession, updateAdminUI, getActiveSession. simpl.
  now rewrite not_expired_at_start.
Qed.

Lemma handleLogin_shape (id name uuid : string) (now : Z) (st : State) :
  let st' := snd (handleLogin id name uuid now st) in
  st' = st \/
  exists us u, st' = navigate now (setUser (Some u) (setUsers us st)).
Proof.
  unfold handleLogin.
  destruct (negb (truthy (Some id))); [left; reflexivity|].
  destruct (String.eqb (loginMode st) "ADMIN").
  - destruct (String.eqb id "oe10"); [right|left; reflexivity].
    exists (users st), ADMIN_USER. now destruct st.
  - destruct (find _ (users st)) as [u|]; cbn [isSome negb andb].
    + right. exists (users st), u. now destruct st.
    + destruct (truthy (Some name)); [right|left; reflexivity].
      do 2 eexists. reflexivity.
Qed.

Lemma loc_step_atMostOneActive (st : State) (a : Action) :
  atMostOneActive (sessions st) -> atMostOneActive (sessions (step st a)).
Proof.
  intros H.
  pose proof (endActive_atMostOneActive) as HE.
  destruct a as [mode|id name uuid now| |type uuid now|uuid now|now
                |sessionId confirmed now|now|now]; cbn [step].
  - exact H.
  - destruct (handleLogin_shape id name uuid now st) as [->|(us & u & ->)];
      [exact H|].
    apply (navigate_closed (fun s => atMostOneActive (sessions s)));
      [apply HE|exact H].
  - exact H.
  - unfold castVote. destruct (getActiveSession st); [|exact H].
    destruct (user st); [|exact H]. simpl.
    unfold atMostOneActive in *.
    etransitivity; [apply active_updateFirst_le|exact H].
    intros x. exact (fun E => E).
  - rewrite loc_startSession_sessions. unfold atMostOneActive. simpl.
    rewrite active_map_deactivate. simpl. lia.
  - apply (endSession_closed (fun s => atMostOneActive (sessions s)));
      [apply HE|exact H].
  - unfold deleteSession. destruct (negb confirmed); [exact H|].
    apply (updateAdminUI_closed (fun s => atMostOneActive (sessions s)));
      [apply HE|].
    unfold atMostOneActive in *. simpl.
    etransitivity; [apply active_filter_le|exact H].
  - apply (updateAdminUI_closed (fun s => atMostOneActive (sessions s)));
      [apply HE|exact H].
  - unfold init.
    apply (navigate_closed (fun s => atMostOneActive (sessions s)));
      [apply HE|exact H].
Qed.

Lemma loc_run_atMostOneActive (acts : list Action) (st : State) :
  atMostOneActive (sessions st) -> atMostOneActive (sessions (run st acts)).
Proof.
  revert st. induction acts as [|a acts IH]; intros st H; [exact H|].
  apply IH, loc_step_atMostOneActive, H.
Qed.

End LocalFacts.

(** * The counter along a run *)

Module ServerCounters.
Import Server.

Lemma srv_init_votes (d : Db) : votes (snd (init d)) = votes d.
Proof.
  unfold init. destruct (findOne _ _); simpl; [reflexivity|].
  destruct (create _ _ _ _); reflexivity.
Qed.

Lemma srv_login_votes (body : LoginBody) (uuid : string) (d : Db) :
  votes (snd (login body uuid d)) = votes d.
Proof.
  unfold login.
  destruct (negb (truthy _)); simpl; [reflexivity|].
  destruct (String.eqb _ "ADMIN").
  - destruct (findOne _ _); reflexivity.
  - destruct (findOne _ _); simpl; [reflexivity|].
    destruct (truthy _); simpl; [|reflexivity].
    destruct (create _ _ _ _); reflexivity.
Qed.

Lemma srv_startSession_votes (b : bool) (userId : option string)
  (uuid : string) (now : Z) (d : Db) :
  votes (snd (startSession b userId uuid now d)) = votes d.
Proof.
  unfold startSession. destruct (negb (isAdmin _)); simpl; [reflexivity|].
  destruct (create _ _ _ _); reflexivity.
Qed.

Lemma srv_castVote_settled (body : VoteBody) (uuid : string) (now : Z) (d : Db) :
  settled (sessions d) (votes d) ->
  settled (sessions (snd (castVote body uuid now d)))
          (votes (snd (castVote body uuid now d))).
Proof.
  intros H. unfold castVote.
  destruct (_ || _); simpl; [exact H|].
  destruct (findOne _ _); simpl; [exact H|].
  unfold create.
  destruct (negb (validVote _)); simpl; [exact H|].
  destruct (existsb _ _); simpl; [exact H|].
  now apply settled_incVotes.
Qed.

Lemma srv_step_settled (b : bool) (d : Db) (r : Request) :
  freshRun b d [r] = true ->
  settled (sessions d) (votes d) ->
  settled (sessions (step b d r)) (votes (step b d r)).
Proof.
  intros Hf H.
  destruct r as [|body uuid|userId|userId uuid now|id now|body uuid now]; simpl.
  - now rewrite ServerFacts.srv_init_sessions, srv_init_votes.
  - now rewrite ServerFacts.srv_login_sessions, srv_login_votes.
  - exact H.
  - rewrite srv_startSession_votes.
    simpl in Hf. rewrite andb_true_r in Hf.
    apply fresh_spec in Hf as [Hid Hv].
    assert (settled (updateMany s_isActive deactivate (sessions d)) (votes d))
      as H1 by (apply (settled_same_counts (sessions d));
                [now apply updateMany_map|exact H]).
    destruct (ServerFacts.srv_startSession_cases b userId uuid now d)
      as [[-> _]|[[-> _]|[-> _]]]; [exact H|exact H1|].
    apply settled_new_last; [|exact Hv|exact H1].
    now rewrite updateMany_map.
  - unfold endSession, findOneAndUpdate. simpl.
    apply (settled_same_counts (sessions d)); [|exact H].
    now apply updateFirst_map.
  - now apply srv_castVote_settled.
Qed.

Lemma srv_run_settled (b : bool) (rs : list Request) (d : Db) :
  freshRun b d rs = true ->
  settled (sessions d) (votes d) ->
  settled (sessions (run b d rs)) (votes (run b d rs)).
Proof.
  revert d. induction rs as [|r rs IH]; intros d Hf H; [exact H|].
  simpl in Hf. apply andb_prop in Hf as [Hr Hrs].
  apply IH; [exact Hrs|]. apply srv_step_settled; [|exact H].
  simpl. now rewrite Hr.
Qed.

End ServerCounters.

Module LocalCounters.
Import Local.

Lemma loc_endActive_settled (now : Z) (st : State) :
  storeSettled st -> storeSettled (endActive now st).
Proof.
  unfold storeSettled, endActive. intros H.
  destruct (find s_isActive (sessions st)); [|exact H]. simpl.
  apply (settled_same_counts (sessions st)); [|exact H].
  now apply updateFirst_map.
Qed.

Lemma loc_step_settled (st : State) (a : Action) :
  freshRun st [a] = true -> storeSettled st -> storeSettled (step st a).
Proof.
  intros Hf H. pose proof loc_endActive_settled as HE.
  destruct a as [mode|id name uuid now| |type uuid now|uuid now|now
                |sessionId confirmed now|now|now]; cbn [step].
  - exact H.
  - destruct (LocalFacts.handleLogin_shape id name uuid now st)
      as [->|(us & u & ->)]; [exact H|].
    apply LocalFacts.navigate_closed; [apply HE|exact H].
  - exact H.
  - unfold castVote. destruct (getActiveSession st); [|exact H].
    destruct (user st); [|exact H]. simpl.
    now apply settled_incVotes.
  - rewrite LocalFacts.loc_startSession_sessions.
    simpl in Hf. rewrite andb_true_r in Hf.
    apply fresh_spec in Hf as [Hid Hv].
    unfold storeSettled. simpl.
    apply settled_new_first; [now rewrite map_map|exact Hv|].
    apply (settled_same_counts (sessions st)); [|exact H].
    rewrite map_map. reflexivity.
  - apply LocalFacts.endSession_closed; [apply HE|exact H].
  - unfold deleteSession. destruct (negb confirmed); [exact H|].
    apply LocalFacts.updateAdminUI_closed; [apply HE|].
    now apply settled_delete.
  - apply LocalFacts.updateAdminUI_closed; [apply HE|exact H].
  - unfold init. apply LocalFacts.navigate_closed; [apply HE|exact H].
Qed.

Lemma loc_run_settled (acts : list Action) (st : State) :
  freshRun st acts = true -> storeSettled st -> storeSettled (run st acts).
Proof.
  revert st. induction acts as [|a acts IH]; intros st Hf H; [exact H|].
  simpl in Hf. apply andb_prop in Hf as [Ha Hacts].
  apply IH; [exact Hacts|]. apply loc_step_settled; [|exact H].
  simpl. now rewrite Ha.
Qed.

End LocalCounters.

(** * Registration on first login *)

Module ServerLogin.
Import Server.






End ServerLogin.

Module LocalLogin.
Import Local.

Lemma loc_endActive_users (now : Z) (us : list User) (st : State) :
  users st = us -> users (endActive now st) = us.
Proof.
  intros Hs. unfold endActive.
  destruct (find s_isActive (sessions st)); exact Hs.
Qed.


Lemma loc_updateAdminUI_users (now : Z) (st : State) :
  users (updateAdminUI now st) = users st.
Proof.
  apply (LocalFacts.updateAdminUI_closed (fun s => users s = users st));
    [apply loc_endActive_users|reflexivity].
Qed.

Lemma loc_navigate_users (now : Z) (st : State) :
  users (navigate now st) = users st.
Proof.
  apply (LocalFacts.navigate_closed (fun s => users s = users st));
    [apply loc_endActive_users|reflexivity].
Qed.






End LocalLogin.

(** * Route-level facts on the server *)

Module ServerRoutes.
Import Server.

Lemma srv_setSessions_same (d : Db) : setSessions (sessions d) d = d.
Proof. now destruct d. Qed.

Lemma find_hasId_None (id : string) (ss : list Session) :
  ~ In id (map s_id ss) -> find (hasId id) ss = None.
Proof.
  induction ss as [|x r IH]; simpl; [reflexivity|]. intros H.
  unfold hasId at 1. destruct (String.eqb (s_id x) id) eqn:E.
  - apply String.eqb_eq in E. tauto.
  - apply IH. tauto.
Qed.

Lemma srv_not_admin (uid : string) (us : list User) :
  (forall u, In u us -> u_id u = uid -> u_role u <> "ADMIN") ->
  isAdmin (findOne (fun u => String.eqb (u_id u) uid) us) = false.
Proof.
  intros H. unfold findOne.
  destruct (find _ us) as [u|] eqn:E; [|reflexivity].
  apply find_some in E as [Hin Hid]. apply String.eqb_eq in Hid.
  simpl. apply String.eqb_neq. now apply H.
Qed.

(** Without a userId, or with an empty one, the role is not looked at. *)
Lemma srv_getActiveSession_anonymous (userId : option string) (d : Db) :
  truthy userId = false ->
  getActiveSession userId d = Json (findOne s_isActive (sessions d)).
Proof. intros H. unfold getActiveSession. now rewrite H. Qed.

(** An ADMIN's userId gets the active session. *)
Lemma srv_getActiveSession_admin (userId : string) (d : Db) :
  isAdmin (findOne (fun u => String.eqb (u_id u) userId) (users d)) = true ->
  getActiveSession (Some userId) d = Json (findOne s_isActive (sessions d)).
Proof.
  intros H. unfold getActiveSession. cbn [str]. rewrite H.
  now rewrite andb_false_r.
Qed.

(** The duplicate check of [POST /api/votes]. *)
Lemma srv_castVote_duplicate (d : Db) (sid uid ty uuid : string)
  (userName : option string) (now : Z) :
  truthy (Some sid) = true -> truthy (Some uid) = true ->
  truthy (Some ty) = true -> votesOf sid uid (votes d) <> [] ->
  castVote (mkVoteBody (Some sid) (Some uid) userName (Some ty)) uuid now d
  = (Status 400 "User already voted in this session", d).
Proof.
  intros Hs Hu Ht Hv. unfold castVote.
  cbn [vb_sessionId vb_userId vb_type vb_userName str].
  rewrite Hs, Hu, Ht. cbn [negb orb]. unfold findOne.
  destruct (find _ (votes d)) eqn:E; [reflexivity|].
  exfalso. apply Hv. unfold votesOf.
  induction (votes d) as [|v r IH]; simpl in *; [reflexivity|].
  destruct (_ && _); [discriminate|auto].
Qed.

(** The role check of [POST /api/sessions/start]. *)
Lemma srv_startSession_forbidden (b : bool) (d : Db) (userId : option string)
  (uuid : string) (now : Z) :
  isAdmin (findOne (byId b userId) (users d)) = false ->
  startSession b userId uuid now d
  = (Status 403 "Only admins can start sessions", d).
Proof. intros H. unfold startSession. now rewrite H. Qed.

Lemma srv_startSession_admin (b : bool) (d : Db) (userId : option string)
  (uuid : string) (now : Z) :
  isAdmin (findOne (byId b userId) (users d)) = true ->
  required uuid = true -> existsb (hasId uuid) (sessions d) = false ->
  startSession b userId uuid now d
  = (Json (mkSession uuid now None true 0),
     setSessions (updateMany s_isActive deactivate (sessions d)
                  ++ [mkSession uuid now None true 0]) d).
Proof.
  intros Ha Hu Hid. unfold startSession, create, validSession.
  rewrite Ha. cbn [negb s_id setSessions sessions]. rewrite Hu. cbn [negb].
  replace (existsb _ _) with false; [now destruct d|].
  symmetry. unfold clashSession. cbn [s_id]. unfold updateMany.
  induction (sessions d) as [|x r IH]; simpl in *; [reflexivity|].
  unfold hasId at 1 in Hid. apply orb_false_elim in Hid as [Hx Hr].
  destruct (s_isActive x); simpl; rewrite Hx; simpl; auto.
Qed.

(** A type outside the enum reaches [Vote.create], which throws. *)
Lemma srv_castVote_other_type (d : Db) (sid uid ty uuid : string)
  (userName : option string) (now : Z) :
  truthy (Some sid) = true -> truthy (Some uid) = true ->
  truthy (Some ty) = true -> enum ["COFFEE"; "TEA"] ty = false ->
  votesOf sid uid (votes d) = [] ->
  castVote (mkVoteBody (Some sid) (Some uid) userName (Some ty)) uuid now d
  = (Caught ValidationError, d).
Proof.
  intros Hs Hu Ht Hty Hnone. unfold castVote.
  cbn [vb_sessionId vb_userId vb_type vb_userName str].
  rewrite Hs, Hu, Ht. cbn [negb orb]. unfold findOne.
  rewrite (find_filter_nil _ _ Hnone).
  unfold create, validVote. cbn [v_type]. rewrite Hty.
  now rewrite !andb_false_r.
Qed.

End ServerRoutes.

(** * What the local application does not check *)

Module LocalRoutes.
Import Local.

(** [app.castVote] stores a vote whenever a session is active and a user
    is logged in: earlier votes and the type are not looked at. *)
Lemma loc_castVote_always_inserts (st : State) (session : Session) (u : User)
  (type uuid : string) (now : Z) :
  getActiveSession st = Some session -> user st = Some u ->
  let v := mkVote uuid (s_id session) (u_id u) (u_name u) type now in
  fst (castVote type uuid now st) = VoteCast v
  /\ votes (snd (castVote type uuid now st)) = (votes st ++ [v])%list.
Proof.
  intros Hs Hu v. unfold castVote. rewrite Hs, Hu. split; reflexivity.
Qed.

(** [app.startSession] does not read [app.user]. *)
Lemma loc_startSession_any_user (st : State) (u : option User)
  (uuid : string) (now : Z) :
  sessions (startSession uuid now (setUser u st))
  = mkSession uuid now None true 0 :: map deactivate (sessions st).
Proof. now rewrite LocalFacts.loc_startSession_sessions. Qed.

End LocalRoutes.

(** * The properties of the specification *)

(** C1 fails in the local application: with the vote of [ann] in the
    active session already stored, a second [castVote] of [ann] is
    accepted, a second Vote of the pair is stored and the counter goes
    from 1 to 2.  The server refuses the same request with 400 and leaves
    the store as it is. *)
Theorem local_castVote_has_no_duplicate_check :
  votesOf "s1" "e1" (Local.votes demoState) = [annVote]
  /\ Local.castVote "TEA" "v2" 7 demoState
     = (Local.VoteCast (mkVote "v2" "s1" "e1" (Some "Ann") "TEA" 7),
        Local.mkState [Local.ADMIN_USER; ann]
          [mkSession "s1" 0 None true 2]
          [annVote; mkVote "v2" "s1" "e1" (Some "Ann") "TEA" 7]
          (Some ann) "EMPLOYEE")
  /\ Server.castVote
       (Server.mkVoteBody (Some "s1") (Some "e1") (Some "Ann") (Some "TEA"))
       "v2" 7 demoDb
     = (Server.Status 400 "User already voted in this session", demoDb).
Proof. repeat split. Qed.

(** C2.  From a state with at most one active session, after any prefix of
    any sequence of operations (in particular of startSession and
    endSession) at most one session is active, on the server and in the
    local application; and when startSession has created its session,
    that session is the only active one. *)
Theorem at_most_one_active_session :
  (forall (b : bool) (d : Server.Db) (rs : list Server.Request) (k : nat),
      atMostOneActive (Server.sessions d) ->
      atMostOneActive (Server.sessions (Server.run b d (firstn k rs))))
  /\ (forall (b : bool) userId uuid now d s,
      fst (Server.startSession b userId uuid now d) = Server.Json s ->
      s = mkSession uuid now None true 0
      /\ activeSessions
           (Server.sessions (snd (Server.startSession b userId uuid now d)))
         = [s])
  /\ (forall (st : Local.State) (acts : list Local.Action) (k : nat),
      atMostOneActive (Local.sessions st) ->
      atMostOneActive (Local.sessions (Local.run st (firstn k acts))))
  /\ (forall uuid now st,
      activeSessions (Local.sessions (Local.startSession uuid now st))
      = [mkSession uuid now None true 0]).
Proof.
  split; [|split; [|split]].
  - intros b d rs k H. now apply ServerFacts.srv_run_atMostOneActive.
  - intros b userId uuid now d s Hs.
    destruct (ServerFacts.srv_startSession_cases b userId uuid now d)
      as [[_ E]|[[_ [e E]]|[-> E]]]; rewrite E in Hs; try discriminate.
    injection Hs as <-. split; [reflexivity|].
    now rewrite active_app, ServerFacts.active_updateMany.
  - intros st acts k H. now apply LocalFacts.loc_run_atMostOneActive.
  - intros uuid now st. rewrite LocalFacts.loc_startSession_sessions. simpl.
    now rewrite active_map_deactivate.
Qed.

(** C2 at [demoDb] and [demoState], each with one active session. *)
Lemma at_most_one_active_session_witness :
  atMostOneActive (Server.sessions demoDb)
  /\ atMostOneActive
       (Server.sessions (Server.run false demoDb (firstn 3 demoRequests)))
  /\ activeSessions
       (Server.sessions
          (snd (Server.startSession false (Some "admin-1") "s2" 20 demoDb)))
     = [mkSession "s2" 20 None true 0]
  /\ atMostOneActive (Local.sessions demoState)
  /\ atMostOneActive
       (Local.sessions (Local.run demoState (firstn 9 demoActions))).
Proof.
  assert (atMostOneActive (Server.sessions demoDb)) as Hd
    by (unfold atMostOneActive; simpl; lia).
  assert (atMostOneActive (Local.sessions demoState)) as Hs
    by (unfold atMostOneActive; simpl; lia).
  split; [exact Hd|]. split.
  - exact (proj1 at_most_one_active_session false demoDb demoRequests 3%nat Hd).
  - split.
    + exact (proj2 (proj1 (proj2 at_most_one_active_session) false
                      (Some "admin-1") "s2" 20 demoDb
                      (mkSession "s2" 20 None true 0) eq_refl)).
    + split; [exact Hs|].
      exact (proj1 (proj2 (proj2 at_most_one_active_session))
               demoState demoActions 9%nat Hs).
Defined.

(** C3.  In every state reached from the empty store by castVote,
    startSession, endSession, deleteSession (and the other operations)
    run to completion one after the other, with each generated session
    id fresh when it is drawn, the totalVotes of every session is the
    number of votes whose sessionId is that session's id. *)
Theorem totalVotes_is_vote_count :
  (forall (b : bool) (rs : list Server.Request) (s : Session),
      Server.freshRun b Server.emptyDb rs = true ->
      In s (Server.sessions (Server.run b Server.emptyDb rs)) ->
      s_totalVotes s
      = votesFor (s_id s) (Server.votes (Server.run b Server.emptyDb rs)))
  /\ (forall (acts : list Local.Action) (s : Session),
      Local.freshRun Local.initial acts = true ->
      In s (Local.sessions (Local.run Local.initial acts)) ->
      s_totalVotes s
      = votesFor (s_id s) (Local.votes (Local.run Local.initial acts))).
Proof.
  split.
  - intros b rs s Hf Hs.
    apply (ServerCounters.srv_run_settled b rs Server.emptyDb Hf); [|exact Hs].
    split; [constructor|intros ? []].
  - intros acts s Hf Hs.
    apply (LocalCounters.loc_run_settled acts Local.initial Hf); [|exact Hs].
    split; [constructor|intros ? []].
Qed.

(** C3 along [demoRequests] and along the first ten of [demoActions]. *)
Lemma totalVotes_is_vote_count_witness :
  Server.freshRun false Server.emptyDb demoRequests = true
  /\ s_totalVotes (mkSession "s1" 0 (Some 9) false 1)
     = votesFor "s1"
         (Server.votes (Server.run false Server.emptyDb demoRequests))
  /\ Local.freshRun Local.initial (firstn 10 demoActions) = true
  /\ s_totalVotes (mkSession "s1" 0 (Some 9) false 2)
     = votesFor "s1"
         (Local.votes (Local.run Local.initial (firstn 10 demoActions))).
Proof.
  split; [reflexivity|]. split.
  - apply (proj1 totalVotes_is_vote_count false demoRequests
             (mkSession "s1" 0 (Some 9) false 1)); [reflexivity|].
    simpl. auto.
  - split; [reflexivity|].
    apply (proj2 totalVotes_is_vote_count (firstn 10 demoActions)
             (mkSession "s1" 0 (Some 9) false 2)); [reflexivity|].
    vm_compute. auto.
Defined.

(** C4 fails in the local application: [startSession] does not look at
    the requester, and called while the employee [ann] is logged in it
    deactivates the open session and creates a new one.  The server
    answers the same employee 403 and leaves the store as it is. *)
Theorem local_startSession_has_no_role_check :
  Local.user demoState = Some ann
  /\ u_role ann = "EMPLOYEE"
  /\ Local.sessions (Local.startSession "s2" 50 demoState)
     = [mkSession "s2" 50 None true 0; mkSession "s1" 0 None false 1]
  /\ forall b : bool,
      Server.startSession b (Some "e1") "s2" 50 demoDb
      = (Server.Status 403 "Only admins can start sessions", demoDb).
Proof. repeat split. Qed.

(** C5, as stated, fails for the empty userId: the route tests
    [if (req.query.userId)] before it looks the user up, the empty string
    is falsy, and the check is skipped.  No User of [demoDb] has the id
    [""], and the route answers with the active session. *)
Lemma getActiveSession_empty_userId_is_not_checked :
  (forall u, In u (Server.users demoDb) -> u_id u <> "")
  /\ Server.findOne s_isActive (Server.sessions demoDb)
     = Some (mkSession "s1" 0 None true 1)
  /\ Server.getActiveSession (Some "") demoDb
     = Server.Json (Some (mkSession "s1" 0 None true 1))
  /\ Server.getActiveSession (Some "") demoDb <> Server.Json None.
Proof.
  split; [intros u [<-|[<-|[]]]; discriminate|].
  repeat split. discriminate.
Qed.

(** C5, amended.  Whatever the store holds, also a session with
    isActive = true, [GET /api/sessions/active] with a userId that is not
    empty and belongs to no User or to a User whose role is not ADMIN
    answers null. *)
Theorem getActiveSession_null_for_non_admin :
  forall (d : Server.Db) (userId : string),
    truthy (Some userId) = true ->
    (forall u, In u (Server.users d) -> u_id u = userId -> u_role u <> "ADMIN") ->
    Server.getActiveSession (Some userId) d = Server.Json None.
Proof.
  intros d userId Hu Hrole. unfold Server.getActiveSession.
  rewrite Hu. cbn [str andb].
  now rewrite (ServerRoutes.srv_not_admin userId (Server.users d) Hrole).
Qed.

(** C5 at [demoDb], whose session is active, for the employee [ann]. *)
Lemma getActiveSession_null_for_non_admin_witness :
  Server.findOne s_isActive (Server.sessions demoDb)
  = Some (mkSession "s1" 0 None true 1)
  /\ truthy (Some "e1") = true
  /\ Server.getActiveSession (Some "e1") demoDb = Server.Json None.
Proof.
  split; [reflexivity|]. split; [reflexivity|].
  apply getActiveSession_null_for_non_admin; [reflexivity|].
  intros u [<-|[<-|[]]]; simpl; congruence.
Defined.



(** C7 fails: a vote whose type is outside COFFEE and TEA is refused by
    the server with status 500, not with a 400, and nothing is inserted;
    the local application stores the vote. *)
Theorem castVote_other_type_is_not_a_client_error :
  let body := Server.mkVoteBody (Some "s1") (Some "admin-1") None
                                (Some "WATER") in
  Server.castVote body "v2" 7 demoDb
  = (Server.Caught Server.ValidationError, demoDb)
  /\ Server.statusCode (fst (Server.castVote body "v2" 7 demoDb)) = 500
  /\ Local.votes (snd (Local.castVote "WATER" "v2" 7 demoState))
     = [annVote; mkVote "v2" "s1" "e1" (Some "Ann") "WATER" 7].
Proof. repeat split. Qed.

(** C8, as stated, fails on the server: ending an ended session again
    replaces its endTime. *)
Lemma endSession_again_moves_endTime :
  let d1 := snd (Server.endSession "s1" 10 demoDb) in
  let d2 := snd (Server.endSession "s1" 20 d1) in
  Server.sessions d1 = [mkSession "s1" 0 (Some 10) false 1]
  /\ Server.sessions d2 = [mkSession "s1" 0 (Some 20) false 1]
  /\ d2 <> d1.
Proof. repeat split. discriminate. Qed.

(** C8, amended.  On the server, ending a session that is already
    inactive leaves it inactive and keeps its id, startTime and
    totalVotes, every other session and the set of active sessions, but
    stores the time of this call as its endTime: the store is unchanged
    when that is the endTime it already had and changed otherwise, and
    ending twice is ending once at the later time.  In the local application, whose
    endSession ends the first active session, every inactive session is
    left as it is, and nothing changes when no session is active. *)
Theorem endSession_again_keeps_all_but_endTime :
  (forall (d : Server.Db) (id : string) (now : Z) (s : Session),
      Server.findOne (hasId id) (Server.sessions d) = Some s ->
      s_isActive s = false ->
      let r := Server.endSession id now d in
      let s' := mkSession (s_id s) (s_startTime s) (Some now) false
                          (s_totalVotes s) in
      fst r = Server.Json (Some s')
      /\ Server.findOne (hasId id) (Server.sessions (snd r)) = Some s'
      /\ (forall i x, nth_error (Server.sessions d) i = Some x ->
                      hasId id x = false ->
                      nth_error (Server.sessions (snd r)) i = Some x)
      /\ activeSessions (Server.sessions (snd r))
         = activeSessions (Server.sessions d)
      /\ (s_endTime s = Some now -> snd r = d)
      /\ (s_endTime s <> Some now -> snd r <> d))
  /\ (forall (d : Server.Db) (id : string) (t1 t2 : Z),
      snd (Server.endSession id t2 (snd (Server.endSession id t1 d)))
      = snd (Server.endSession id t2 d))
  /\ (forall (st : Local.State) (now : Z) (i : nat) (s : Session),
      nth_error (Local.sessions st) i = Some s -> s_isActive s = false ->
      nth_error (Local.sessions (Local.endSession now st)) i = Some s)
  /\ (forall (st : Local.State) (now : Z),
      Local.getActiveSession st = None -> Local.endSession now st = st).
Proof.
  split; [|split; [|split]].
  - intros d id now s Hs Hi r s'. subst r.
    unfold Server.endSession, Server.findOneAndUpdate, Server.findOne in *.
    rewrite Hs. cbn [option_map fst snd Server.setSessions Server.sessions].
    assert (find (hasId id) (updateFirst (hasId id) (ended now)
                                         (Server.sessions d)) = Some s')
      as Hs'.
    { change s' with (ended now s). apply find_updateFirst; [exact Hs|].
      apply find_some in Hs as [_ Hs]. exact Hs. }
    split; [reflexivity|]. split; [exact Hs'|]. split; [|split; [|split]].
    + intros i x Hx Hid. now apply updateFirst_nth_other.
    + now apply (active_updateFirst_inactive _ _ _ s).
    + intros He. rewrite (updateFirst_fixed _ _ _ s Hs).
      * now destruct d.
      * now apply ended_fixed.
    + intros He Hd. apply (f_equal Server.sessions) in Hd. simpl in Hd.
      rewrite Hd, Hs in Hs'. injection Hs' as Hs'.
      apply He. rewrite Hs'. reflexivity.
  - intros d id t1 t2. unfold Server.endSession, Server.findOneAndUpdate.
    simpl. unfold Server.setSessions. simpl. f_equal.
    now apply updateFirst_twice.
  - intros st now i s Hs Hi.
    apply (LocalFacts.endSession_closed
             (fun st' => nth_error (Local.sessions st') i = Some s));
      [|exact Hs].
    intros st' Hs'. unfold Local.endActive.
    destruct (find s_isActive (Local.sessions st')); [|exact Hs']. simpl.
    now apply updateFirst_nth_other.
  - intros st now. apply loc_endSession_idle.
Qed.

(** C8, amended, at [endedDb] and [endedState], whose session was ended
    at time 10 and is ended again at time 20. *)
Lemma endSession_again_keeps_all_but_endTime_witness :
  let s := mkSession "s1" 0 (Some 10) false 1 in
  Server.findOne (hasId "s1") (Server.sessions endedDb) = Some s
  /\ s_isActive s = false
  /\ fst (Server.endSession "s1" 20 endedDb)
     = Server.Json (Some (mkSession "s1" 0 (Some 20) false 1))
  /\ activeSessions (Server.sessions (snd (Server.endSession "s1" 20 endedDb)))
     = activeSessions (Server.sessions endedDb)
  /\ snd (Server.endSession "s1" 10 endedDb) = endedDb
  /\ nth_error (Local.sessions endedState) 0 = Some s
  /\ nth_error (Local.sessions (Local.endSession 20 endedState)) 0 = Some s
  /\ Local.endSession 20 endedState = endedState.
Proof.
  intros s.
  pose proof (proj1 endSession_again_keeps_all_but_endTime endedDb "s1" 20 s
                eq_refl eq_refl) as (Hr & _ & _ & Ha & _ & _).
  pose proof (proj1 endSession_again_keeps_all_but_endTime endedDb "s1" 10 s
                eq_refl eq_refl) as (_ & _ & _ & _ & Hsame & _).
  destruct (proj2 (proj2 endSession_again_keeps_all_but_endTime))
    as [Lkeep Lidle].
  split; [reflexivity|]. split; [reflexivity|]. split; [exact Hr|].
  split; [exact Ha|]. split; [exact (Hsame eq_refl)|].
  split; [reflexivity|].
  split; [exact (Lkeep endedState 20 0%nat s eq_refl eq_refl)|].
  exact (Lidle endedState 20 eq_refl).
Defined.

(** C9, as stated, fails: a request with all three fields present and no
    earlier vote of the pair is answered 500, and nothing is inserted,
    when its type is not one of the schema's enum. *)
Lemma castVote_other_type_is_not_inserted :
  let body := Server.mkVoteBody (Some "s9") (Some "e1") None (Some "WATER") in
  truthy (Server.vb_sessionId body) = true
  /\ truthy (Server.vb_userId body) = true
  /\ truthy (Server.vb_type body) = true
  /\ votesOf "s9" "e1" (Server.votes demoDb) = []
  /\ Server.castVote body "v2" 7 demoDb
     = (Server.Caught Server.ValidationError, demoDb).
Proof. repeat split. Qed.

(** C9, amended.  A vote request with sessionId and userId present, a type
    of the enum, no earlier vote of the pair and a fresh vote id is
    answered with the new Vote, which is appended, whether or not a
    Session with that id exists and whatever its isActive is; the counter
    of the first session with that id is incremented, and when there is
    no such session the sessions are left as they are. *)
Theorem castVote_needs_no_session :
  forall (d : Server.Db) (sid uid ty uuid : string) (userName : option string)
         (now : Z),
    truthy (Some sid) = true -> truthy (Some uid) = true ->
    Server.enum ["COFFEE"; "TEA"] ty = true ->
    votesOf sid uid (Server.votes d) = [] ->
    Server.required uuid = true ->
    existsb (fun v => String.eqb (v_id v) uuid) (Server.votes d) = false ->
    let v := mkVote uuid sid uid userName ty now in
    let r := Server.castVote
               (Server.mkVoteBody (Some sid) (Some uid) userName (Some ty))
               uuid now d in
    fst r = Server.Json v
    /\ Server.votes (snd r) = (Server.votes d ++ [v])%list
    /\ Server.users (snd r) = Server.users d
    /\ Server.sessions (snd r)
       = updateFirst (hasId sid) incVotes (Server.sessions d)
    /\ (~ In sid (map s_id (Server.sessions d)) ->
        Server.sessions (snd r) = Server.sessions d).
Proof.
  intros d sid uid ty uuid userName now Hs Hu Hty Hnone Hid Hfresh v r.
  assert (truthy (Some ty) = true) as Ht.
  { simpl. destruct ty; [discriminate|reflexivity]. }
  assert (r = (Server.Json v,
               Server.setSessions
                 (updateFirst (hasId sid) incVotes (Server.sessions d))
                 (Server.setVotes (Server.votes d ++ [v]) d))) as ->.
  { subst r. unfold Server.castVote.
    cbn [Server.vb_sessionId Server.vb_userId Server.vb_type
         Server.vb_userName str].
    rewrite Hs, Hu, Ht. cbn [negb orb]. unfold Server.findOne.
    replace (find _ (Server.votes d)) with (@None Vote).
    2:{ symmetry. now apply find_filter_nil. }
    unfold Server.create, Server.validVote.
    cbn [v_id v_sessionId v_userId v_type].
    change (Server.required sid) with (truthy (Some sid)).
    change (Server.required uid) with (truthy (Some uid)).
    rewrite Hid, Hs, Hu, Hty. cbn [andb negb].
    unfold Server.clashVote. cbn [v_id]. rewrite Hfresh. reflexivity. }
  simpl. repeat split.
  intros Hno. apply updateFirst_none. now apply ServerRoutes.find_hasId_None.
Qed.

(** C9, amended, at [demoDb] for a session id that no Session carries,
    and at [endedDb] for its ended session. *)
Lemma castVote_needs_no_session_witness :
  let v := mkVote "v2" "s9" "e1" None "TEA" 7 in
  let r := Server.castVote
             (Server.mkVoteBody (Some "s9") (Some "e1") None (Some "TEA"))
             "v2" 7 demoDb in
  let w := mkVote "v2" "s1" "admin-1" None "TEA" 12 in
  let r' := Server.castVote
              (Server.mkVoteBody (Some "s1") (Some "admin-1") None (Some "TEA"))
              "v2" 12 endedDb in
  ~ In "s9" (map s_id (Server.sessions demoDb))
  /\ votesOf "s9" "e1" (Server.votes demoDb) = []
  /\ fst r = Server.Json v
  /\ Server.votes (snd r) = [annVote; v]
  /\ Server.sessions (snd r) = Server.sessions demoDb
  /\ votesOf "s1" "admin-1" (Server.votes endedDb) = []
  /\ fst r' = Server.Json w
  /\ Server.votes (snd r') = [annVote; w]
  /\ Server.sessions (snd r') = [mkSession "s1" 0 (Some 10) false 2].
Proof.
  intros v r w r'.
  assert (~ In "s9" (map s_id (Server.sessions demoDb))) as Hno
    by (simpl; intros [H|[]]; discriminate H).
  destruct (castVote_needs_no_session demoDb "s9" "e1" "TEA" "v2" None 7
              eq_refl eq_refl eq_refl eq_refl eq_refl eq_refl)
    as (Hr & Hv & _ & _ & Hs).
  destruct (castVote_needs_no_session endedDb "s1" "admin-1" "TEA" "v2" None
              12 eq_refl eq_refl eq_refl eq_refl eq_refl eq_refl)
    as (Hr' & Hv' & _ & Hs' & _).
  split; [exact Hno|]. split; [reflexivity|]. split; [exact Hr|].
  split; [exact Hv|]. split; [exact (Hs Hno)|].
  split; [reflexivity|]. split; [exact Hr'|]. split; [exact Hv'|]. exact Hs'.
Defined.

(** C10.  [POST /api/sessions/:id/end] with an id that no Session carries
    answers 200 with null and leaves the store as it is. *)
Theorem endSession_unknown_id_is_null :
  forall (d : Server.Db) (id : string) (now : Z),
    ~ In id (map s_id (Server.sessions d)) ->
    Server.endSession id now d = (Server.Json None, d)
    /\ Server.statusCode (fst (Server.endSession id now d)) = 200.
Proof.
  intros d id now H.
  assert (Server.endSession id now d = (Server.Json None, d)) as E.
  { unfold Server.endSession, Server.findOneAndUpdate, Server.findOne.
    rewrite updateFirst_none, ServerRoutes.find_hasId_None by
      (try apply ServerRoutes.find_hasId_None; exact H).
    simpl. now rewrite ServerRoutes.srv_setSessions_same. }
  now rewrite E.
Qed.

(** C10 at [demoDb] for the id s9. *)
Lemma endSession_unknown_id_is_null_witness :
  ~ In "s9" (map s_id (Server.sessions demoDb))
  /\ Server.endSession "s9" 7 demoDb = (Server.Json None, demoDb).
Proof.
  assert (~ In "s9" (map s_id (Server.sessions demoDb))) as Hno
    by (simpl; intros [H|[]]; discriminate H).
  split; [exact Hno|].
  exact (proj1 (endSession_unknown_id_is_null demoDb "s9" 7 Hno)).
Defined.

(** * Further list facts *)

Lemma find_existsb_false_inv {A : Type} (p : A -> bool) (l : list A) :
  find p l = None -> existsb p l = false.
Proof.
  induction l as [|a r IH]; simpl; [reflexivity|].
  destruct (p a); simpl; [discriminate|auto].
Qed.

Lemma find_app_hit {A : Type} (p : A -> bool) (l l' : list A) (x : A) :
  find p l = None -> p x = true -> find p (l ++ x :: l') = Some x.
Proof.
  intros Hn Hx. rewrite find_app_None by exact Hn. simpl. now rewrite Hx.
Qed.

Lemma updateFirst_app_miss {A : Type} (p : A -> bool) (f : A -> A)
  (l l' : list A) :
  find p l = None ->
  updateFirst p f (l ++ l') = (l ++ updateFirst p f l')%list.
Proof.
  induction l as [|a r IH]; simpl; [reflexivity|].
  destruct (p a); [discriminate|]. intros H. now rewrite IH.
Qed.

Lemma find_none_filter_nil {A : Type} (p : A -> bool) (l : list A) :
  find p l = None -> filter p l = [].
Proof.
  induction l as [|a r IH]; simpl; [reflexivity|].
  destruct (p a); [discriminate|auto].
Qed.

Lemma NoDup_map_eq {A B : Type} (f : A -> B) (l : list A) (x y : A) :
  NoDup (map f l) -> In x l -> In y l -> f x = f y -> x = y.
Proof.
  induction l as [|a r IH]; simpl; [tauto|].
  intros Hnd Hx Hy E. inversion Hnd as [|? ? Ha Hr]; subst.
  destruct Hx as [<-|Hx], Hy as [<-|Hy]; auto.
  - exfalso. apply Ha. rewrite E. now apply in_map.
  - exfalso. apply Ha. rewrite <- E. now apply in_map.
Qed.

Lemma find_app_Some' {A : Type} (p : A -> bool) (l l' : list A) (x : A) :
  find p l = Some x -> find p (l ++ l') = Some x.
Proof.
  induction l as [|a r IH]; simpl; [discriminate|].
  destruct (p a); auto.
Qed.

Lemma map_filter_ids (sid : string) (ss : list Session) :
  map s_id (filter (fun s => negb (String.eqb (s_id s) sid)) ss)
  = filter (fun id => negb (String.eqb id sid)) (map s_id ss).
Proof.
  induction ss as [|x r IH]; simpl; [reflexivity|].
  destruct (String.eqb (s_id x) sid); simpl; now rewrite IH.
Qed.

Lemma votesFor_deleted (sid : string) (vs : list Vote) :
  votesFor sid (filter (fun v => negb (String.eqb (v_sessionId v) sid)) vs) = 0.
Proof.
  unfold votesFor. induction vs as [|v r IH]; simpl; [reflexivity|].
  destruct (String.eqb (v_sessionId v) sid) eqn:E; simpl; [exact IH|].
  now rewrite E.
Qed.

Lemma In_firstn {A : Type} (n : nat) (l : list A) (x : A) :
  In x (firstn n l) -> In x l.
Proof.
  revert l. induction n as [|n IH]; intros [|a r]; simpl; try tauto.
  intros [H|H]; auto.
Qed.

(** * What the backend keeps true of its collections *)

Lemma create_inr {A : Type} (valid : A -> bool) (clash : A -> A -> bool)
  (doc : A) (docs l : list A) :
  Server.create valid clash doc docs = inr l ->
  l = (docs ++ [doc])%list /\ valid doc = true
  /\ existsb (clash doc) docs = false.
Proof.
  unfold Server.create. destruct (valid doc); simpl; [|discriminate].
  destruct (existsb (clash doc) docs); [discriminate|].
  intros [= <-]. auto.
Qed.

Lemma create_inl {A : Type} (valid : A -> bool) (clash : A -> A -> bool)
  (doc : A) (docs : list A) (e : Server.StoreError) :
  Server.create valid clash doc docs = inl e ->
  (e = Server.ValidationError /\ valid doc = false)
  \/ (e = Server.DuplicateKey /\ valid doc = true
      /\ existsb (clash doc) docs = true).
Proof.
  unfold Server.create. destruct (valid doc); simpl.
  - destruct (existsb (clash doc) docs); [|discriminate].
    intros [= <-]. auto.
  - intros [= <-]. auto.
Qed.

Lemma countType_split (vs : list Vote) :
  (forall v, In v vs -> Server.enum ["COFFEE"; "TEA"] (v_type v) = true) ->
  countType "COFFEE" vs + countType "TEA" vs = Z.of_nat (length vs).
Proof.
  unfold countType. induction vs as [|v r IH]; intros H; [reflexivity|].
  assert (Server.enum ["COFFEE"; "TEA"] (v_type v) = true) as Hv
    by (apply H; now left).
  assert (forall x, In x r ->
                    Server.enum ["COFFEE"; "TEA"] (v_type x) = true) as Hr
    by (intros x Hx; apply H; now right).
  specialize (IH Hr). cbn [filter].
  unfold Server.enum in Hv. cbn [existsb] in Hv.
  destruct (String.eqb (v_type v) "COFFEE") eqn:Ec.
  - apply String.eqb_eq in Ec. rewrite Ec. cbn [String.eqb Ascii.eqb Bool.eqb].
    cbn [length]. lia.
  - destruct (String.eqb (v_type v) "TEA") eqn:Et; [|discriminate].
    cbn [length]. lia.
Qed.

Module ServerInvariants.
Import Server.

Lemma votesOf_app (sid uid : string) (vs ws : list Vote) :
  votesOf sid uid (vs ++ ws) = (votesOf sid uid vs ++ votesOf sid uid ws)%list.
Proof. apply filter_app. Qed.

Lemma srv_castVote_votesKept (body : VoteBody) (uuid : string) (now : Z)
  (d : Db) :
  votesKept (votes d) -> votesKept (votes (snd (castVote body uuid now d))).
Proof.
  intros [Hv Hp]. unfold castVote.
  destruct (_ || _); [split; assumption|].
  destruct (findOne _ (votes d)) eqn:Hf; [split; assumption|].
  destruct (create _ _ _ _) as [e|vs] eqn:Hc; [split; assumption|].
  apply create_inr in Hc as (-> & Hvalid & _). cbn [snd setSessions setVotes votes].
  split.
  - intros v Hin. apply in_app_or in Hin as [Hin|[<-|[]]]; auto.
  - intros sid uid. rewrite votesOf_app, length_app.
    unfold votesOf at 2. cbn [filter v_sessionId v_userId].
    destruct (String.eqb (str (vb_sessionId body)) sid
              && String.eqb (str (vb_userId body)) uid) eqn:E.
    + apply andb_prop in E as [E1 E2].
      apply String.eqb_eq in E1, E2. subst sid uid.
      unfold votesOf, findOne in *.
      rewrite (find_none_filter_nil _ _ Hf). simpl. lia.
    + specialize (Hp sid uid). simpl. lia.
Qed.

Lemma srv_step_votesKept (b : bool) (d : Db) (r : Request) :
  votesKept (votes d) -> votesKept (votes (step b d r)).
Proof.
  intros H.
  destruct r as [|body uuid|userId|userId uuid now|id now|body uuid now];
    cbn [step].
  - now rewrite ServerCounters.srv_init_votes.
  - now rewrite ServerCounters.srv_login_votes.
  - exact H.
  - now rewrite ServerCounters.srv_startSession_votes.
  - exact H.
  - now apply srv_castVote_votesKept.
Qed.

Lemma srv_run_votesKept (b : bool) (rs : list Request) (d : Db) :
  votesKept (votes d) -> votesKept (votes (run b d rs)).
Proof.
  revert d. induction rs as [|r rs IH]; intros d H; [exact H|].
  apply IH, srv_step_votesKept, H.
Qed.

Lemma votesKept_empty : votesKept (votes emptyDb).
Proof. split; [intros v []|intros sid uid; simpl; lia]. Qed.

Lemma clashUser_false (u : User) (us : list User) :
  existsb (clashUser u) us = false ->
  ~ In (u_id u) (map u_id us) /\ ~ In (u_employeeId u) (map u_employeeId us).
Proof.
  induction us as [|x r IH]; simpl; [tauto|]. intros H.
  apply orb_false_elim in H as [Hx Hr]. unfold clashUser in Hx.
  apply orb_false_elim in Hx as [Hid Hcode].
  apply String.eqb_neq in Hid, Hcode. specialize (IH Hr). tauto.
Qed.

Lemma usersKept_create (u : User) (us l : list User) :
  create validUser clashUser u us = inr l ->
  (u_role u = "ADMIN" -> u = seededAdmin) ->
  usersKept us -> usersKept l.
Proof.
  intros Hc Hrole (Hid & Hcode & Hvalid & Hadmin).
  apply create_inr in Hc as (-> & Hv & Hclash).
  apply clashUser_false in Hclash as [Hnid Hncode].
  repeat split.
  - rewrite map_app. simpl. apply NoDup_app; [exact Hid|repeat constructor; easy|].
    intros x Hx [<-|[]]. contradiction.
  - rewrite map_app. simpl.
    apply NoDup_app; [exact Hcode|repeat constructor; easy|].
    intros x Hx [<-|[]]. contradiction.
  - intros x Hx. apply in_app_or in Hx as [Hx|[<-|[]]]; auto.
  - intros x Hx. apply in_app_or in Hx as [Hx|[<-|[]]]; auto.
Qed.

Lemma srv_step_usersKept (b : bool) (d : Db) (r : Request) :
  usersKept (users d) -> usersKept (users (step b d r)).
Proof.
  intros H.
  destruct r as [|body uuid|userId|userId uuid now|id now|body uuid now];
    cbn [step].
  - unfold init. destruct (findOne _ _); [exact H|].
    destruct (create _ _ _ _) as [e|l] eqn:Hc; [exact H|].
    cbn [snd setUsers users].
    apply (usersKept_create _ _ _ Hc); [reflexivity|exact H].
  - unfold login.
    destruct (negb (truthy _)); [exact H|].
    destruct (String.eqb _ "ADMIN").
    + destruct (findOne _ _); exact H.
    + destruct (findOne _ _); cbn [isSome negb andb]; [exact H|].
      destruct (truthy _); [|exact H].
      destruct (create _ _ _ _) as [e|l] eqn:Hc; [exact H|].
      cbn [snd setUsers users].
      apply (usersKept_create _ _ _ Hc); [discriminate|exact H].
  - exact H.
  - unfold startSession. destruct (negb (isAdmin _)); [exact H|].
    destruct (create _ _ _ _); exact H.
  - exact H.
  - unfold castVote. destruct (_ || _); [exact H|].
    destruct (findOne _ _); [exact H|].
    destruct (create _ _ _ _); exact H.
Qed.

Lemma srv_run_usersKept (b : bool) (rs : list Request) (d : Db) :
  usersKept (users d) -> usersKept (users (run b d rs)).
Proof.
  revert d. induction rs as [|r rs IH]; intros d H; [exact H|].
  apply IH, srv_step_usersKept, H.
Qed.

Lemma usersKept_empty : usersKept (users emptyDb).
Proof. repeat split; try constructor; intros u []. Qed.

End ServerInvariants.

Module ServerMore.
Import Server.

Lemma find_active_updateMany (ss : list Session) :
  find s_isActive (updateMany s_isActive deactivate ss) = None.
Proof.
  unfold updateMany. induction ss as [|x r IH]; simpl; [reflexivity|].
  destruct (s_isActive x) eqn:Hx; simpl; [|rewrite Hx]; exact IH.
Qed.

Lemma find_hasId_updateMany (id : string) (ss : list Session) :
  existsb (hasId id) ss = false ->
  find (hasId id) (updateMany s_isActive deactivate ss) = None.
Proof.
  unfold updateMany. induction ss as [|x r IH]; simpl; [reflexivity|].
  intros H. apply orb_false_elim in H as [Hx Hr].
  destruct (s_isActive x); unfold hasId in *; simpl; rewrite Hx; auto.
Qed.

(** A place of the sessions collection keeps its record, up to
    [evolves], through every request. *)
Lemma evolves_refl (s : Session) : evolves s s.
Proof. unfold evolves. repeat split; auto. lia. Qed.

Lemma evolves_trans (s1 s2 s3 : Session) :
  evolves s1 s2 -> evolves s2 s3 -> evolves s1 s3.
Proof.
  unfold evolves. intros (A1 & B1 & C1 & D1) (A2 & B2 & C2 & D2).
  repeat split; try congruence; auto. lia.
Qed.

Lemma updateFirst_evolves (p : Session -> bool) (f : Session -> Session)
  (ss : list Session) (i : nat) (s : Session) :
  (forall x, evolves x (f x)) ->
  nth_error ss i = Some s ->
  exists s', nth_error (updateFirst p f ss) i = Some s' /\ evolves s s'.
Proof.
  intros Hf. revert i. induction ss as [|a r IH]; intros [|i]; simpl;
    try discriminate.
  - intros [= ->]. destruct (p s); simpl; eexists; split; eauto.
    apply evolves_refl.
  - intros H. destruct (p a); simpl; [|now apply IH].
    exists s. split; [exact H|apply evolves_refl].
Qed.

Lemma updateMany_evolves (ss : list Session) (i : nat) (s : Session) :
  nth_error ss i = Some s ->
  exists s', nth_error (updateMany s_isActive deactivate ss) i = Some s'
             /\ evolves s s'.
Proof.
  unfold updateMany. intros H. rewrite nth_error_map, H. simpl.
  eexists. split; [reflexivity|].
  destruct (s_isActive s) eqn:E; [|apply evolves_refl].
  unfold evolves. simpl. repeat split; auto. lia.
Qed.

Lemma srv_step_evolves (b : bool) (d : Db) (r : Request) (i : nat)
  (s : Session) :
  nth_error (sessions d) i = Some s ->
  exists s', nth_error (sessions (step b d r)) i = Some s' /\ evolves s s'.
Proof.
  intros H.
  assert (exists s', nth_error (sessions d) i = Some s' /\ evolves s s')
    as Hsame by (exists s; split; [exact H|apply evolves_refl]).
  destruct r as [|body uuid|userId|userId uuid now|id now|body uuid now];
    cbn [step].
  - now rewrite ServerFacts.srv_init_sessions.
  - now rewrite ServerFacts.srv_login_sessions.
  - exact Hsame.
  - destruct (updateMany_evolves _ _ _ H) as (s' & Hs' & He).
    destruct (ServerFacts.srv_startSession_cases b userId uuid now d)
      as [[-> _]|[[-> _]|[-> _]]]; [exact Hsame|eauto|].
    exists s'. split; [|exact He].
    rewrite nth_error_app1; [exact Hs'|].
    apply nth_error_Some. congruence.
  - unfold endSession, findOneAndUpdate. cbn [snd setSessions sessions].
    apply updateFirst_evolves; [|exact H].
    intros x. unfold evolves. simpl. repeat split; auto. lia.
  - destruct (ServerFacts.srv_castVote_sessions body uuid now d) as [->| ->];
      [exact Hsame|].
    apply updateFirst_evolves; [|exact H].
    intros x. unfold evolves. simpl. repeat split; auto. lia.
Qed.

Lemma srv_run_evolves (b : bool) (rs : list Request) (d : Db) (i : nat)
  (s : Session) :
  nth_error (sessions d) i = Some s ->
  exists s', nth_error (sessions (run b d rs)) i = Some s' /\ evolves s s'.
Proof.
  revert d s. induction rs as [|r rs IH]; intros d s H.
  - exists s. split; [exact H|apply evolves_refl].
  - destruct (srv_step_evolves b d r i s H) as (s1 & H1 & E1).
    destruct (IH (step b d r) s1 H1) as (s2 & H2 & E2).
    exists s2. split; [exact H2|]. now apply (evolves_trans s s1 s2).
Qed.

Lemma clashUser_code_taken (u : User) (us : list User) :
  codeTaken (u_employeeId u) us = true -> existsb (clashUser u) us = true.
Proof.
  intros H. unfold codeTaken in H.
  induction us as [|x r IH]; simpl in *; [discriminate|].
  unfold clashUser at 1.
  destruct (String.eqb (u_employeeId x) (u_employeeId u)); simpl in *.
  - now rewrite orb_true_r.
  - rewrite orb_false_r. now rewrite IH, orb_true_r.
Qed.

End ServerMore.

(** * Facts about what the local application displays *)

Lemma find_hd_filter {A : Type} (p : A -> bool) (l : list A) :
  find p l = hd_error (filter p l).
Proof.
  induction l as [|a r IH]; simpl; [reflexivity|].
  destruct (p a); [reflexivity|exact IH].
Qed.

Lemma find_updateFirst_kept {A : Type} (q p : A -> bool) (f : A -> A)
  (l : list A) (a : A) :
  (forall x, q (f x) = q x) -> find q l = Some a ->
  exists a', find q (updateFirst p f l) = Some a' /\ (a' = a \/ a' = f a).
Proof.
  intros Hq. induction l as [|x r IH]; simpl; [discriminate|].
  destruct (q x) eqn:Ex.
  - intros [= <-]. destruct (p x); simpl.
    + rewrite Hq, Ex. eauto.
    + rewrite Ex. eauto.
  - intros Ha. destruct (p x); simpl.
    + rewrite Hq, Ex. rewrite Ha. eauto.
    + rewrite Ex. auto.
Qed.

Lemma count_both_le (sid : string) (vs : list Vote) :
  Z.of_nat (length (filter (fun v => String.eqb (v_sessionId v) sid
                                     && String.eqb (v_type v) "COFFEE") vs))
  + Z.of_nat (length (filter (fun v => String.eqb (v_sessionId v) sid
                                       && String.eqb (v_type v) "TEA") vs))
  <= votesFor sid vs.
Proof.
  unfold votesFor. induction vs as [|v r IH]; [simpl; lia|].
  cbn [filter].
  destruct (String.eqb (v_sessionId v) sid); cbn [andb]; [|exact IH].
  destruct (String.eqb (v_type v) "COFFEE") eqn:Ec.
  - apply String.eqb_eq in Ec. rewrite Ec.
    cbn [String.eqb Ascii.eqb Bool.eqb length]. lia.
  - destruct (String.eqb (v_type v) "TEA"); cbn [length]; lia.
Qed.

Lemma countType_le (vs : list Vote) :
  countType "COFFEE" vs + countType "TEA" vs <= Z.of_nat (length vs).
Proof.
  unfold countType. induction vs as [|v r IH]; [simpl; lia|].
  cbn [filter].
  destruct (String.eqb (v_type v) "COFFEE") eqn:Ec.
  - apply String.eqb_eq in Ec. rewrite Ec.
    cbn [String.eqb Ascii.eqb Bool.eqb length]. lia.
  - destruct (String.eqb (v_type v) "TEA"); cbn [length]; lia.
Qed.

Module LocalViewFacts.
Import Local.

Lemma loc_endSession_no_expired (now : Z) (st : State) (s : Session) :
  getActiveSession (endSession now st) = Some s -> expired now s = false.
Proof.
  funelim (endSession now st).
  - destruct (expired now session) eqn:Ex; [now apply H|].
    intros Hs. congruence.
  - intros Hs. congruence.
Qed.

Lemma loc_updateAdminUI_no_expired (now : Z) (st : State) (s : Session) :
  getActiveSession (updateAdminUI now st) = Some s -> expired now s = false.
Proof.
  unfold updateAdminUI.
  destruct (getActiveSession st) as [a|] eqn:Ha; [|congruence].
  destruct (expired now a) eqn:Ex.
  - apply loc_endSession_no_expired.
  - congruence.
Qed.

Lemma loc_endActive_votes (now : Z) (vs : list Vote) (st : State) :
  votes st = vs -> votes (endActive now st) = vs.
Proof.
  intros H. unfold endActive.
  destruct (find s_isActive (sessions st)); exact H.
Qed.

Lemma loc_endActive_user (now : Z) (u : option User) (st : State) :
  user st = u -> user (endActive now st) = u.
Proof.
  intros H. unfold endActive.
  destruct (find s_isActive (sessions st)); exact H.
Qed.

Lemma loc_endActive_ids (now : Z) (ids : list string) (st : State) :
  map s_id (sessions st) = ids -> map s_id (sessions (endActive now st)) = ids.
Proof.
  intros H. unfold endActive.
  destruct (find s_isActive (sessions st)); [|exact H]. simpl.
  now rewrite updateFirst_map.
Qed.

(** What a successful [castVote] leaves behind. *)
Lemma loc_castVote_cast (st : State) (type uuid : string) (now : Z) (v : Vote) :
  fst (castVote type uuid now st) = VoteCast v ->
  exists session u,
    getActiveSession st = Some session /\ user st = Some u
    /\ v = mkVote uuid (s_id session) (u_id u) (u_name u) type now
    /\ votes (snd (castVote type uuid now st)) = (votes st ++ [v])%list
    /\ users (snd (castVote type uuid now st)) = users st
    /\ user (snd (castVote type uuid now st)) = Some u
    /\ exists session',
        getActiveSession (snd (castVote type uuid now st)) = Some session'
        /\ s_id session' = s_id session
        /\ s_startTime session' = s_startTime session.
Proof.
  unfold castVote.
  destruct (getActiveSession st) as [session|] eqn:Hs; [|discriminate].
  destruct (user st) as [u|] eqn:Hu; [|discriminate].
  cbn [fst snd]. intros [= <-]. exists session, u.
  repeat split; auto.
  unfold getActiveSession in *. cbn [setSessions setVotes sessions].
  destruct (find_updateFirst_kept s_isActive (hasId (s_id session)) incVotes
              (sessions st) session (fun x => eq_refl) Hs)
    as (a' & Ha' & Hor).
  exists a'. split; [exact Ha'|]. destruct Hor as [->| ->]; auto.
Qed.

End LocalViewFacts.

(** * Further properties of the backend *)

(** X1.  In every store reached from the empty one, the totals that
    [GET /api/stats] reports add up: coffeeTotal + teaTotal = totalVotes. *)
Theorem stats_totals_add_up :
  forall (b : bool) (rs : list Server.Request) (s : ServerReads.Stats),
    ServerReads.getStats (Server.run b Server.emptyDb rs) = Server.Json s ->
    ServerReads.coffeeTotal s + ServerReads.teaTotal s
    = ServerReads.totalVotes s.
Proof.
  intros b rs s [= <-]. simpl. apply countType_split.
  intros v Hv.
  destruct (ServerInvariants.srv_run_votesKept b rs Server.emptyDb
              ServerInvariants.votesKept_empty) as [Hvalid _].
  specialize (Hvalid v Hv). unfold Server.validVote in Hvalid.
  now apply andb_prop in Hvalid as [_ Hvalid].
Qed.

Lemma stats_totals_add_up_witness :
  ServerReads.getStats (Server.run false Server.emptyDb demoRequests)
  = Server.Json (ServerReads.mkStats 1 0 1)
  /\ 1 + 0 = 1.
Proof.
  split; [reflexivity|].
  exact (stats_totals_add_up false demoRequests (ServerReads.mkStats 1 0 1)
           eq_refl).
Defined.

(** X2.  In every store reached from the empty one, a user has at most
    one vote in a session. *)
Theorem one_vote_per_user_and_session :
  forall (b : bool) (rs : list Server.Request) (sid uid : string),
    (length (votesOf sid uid (Server.votes (Server.run b Server.emptyDb rs)))
     <= 1)%nat.
Proof.
  intros b rs.
  exact (proj2 (ServerInvariants.srv_run_votesKept b rs Server.emptyDb
                  ServerInvariants.votesKept_empty)).
Qed.

(** X3.  In every store reached from the empty one, user ids are pairwise
    distinct, employee codes are pairwise distinct, and a user with the
    role ADMIN is the seeded administrator, so there is at most one. *)
Theorem users_unique_and_one_admin :
  forall (b : bool) (rs : list Server.Request),
    let us := Server.users (Server.run b Server.emptyDb rs) in
    NoDup (map u_id us) /\ NoDup (map u_employeeId us)
    /\ (forall u, In u us -> u_role u = "ADMIN" -> u = seededAdmin).
Proof.
  intros b rs us.
  destruct (ServerInvariants.srv_run_usersKept b rs Server.emptyDb
              ServerInvariants.usersKept_empty) as (H1 & H2 & _ & H4).
  auto.
Qed.

Lemma users_unique_and_one_admin_witness :
  In seededAdmin (Server.users (Server.run false Server.emptyDb demoRequests))
  /\ seededAdmin = seededAdmin.
Proof.
  assert (In seededAdmin
            (Server.users (Server.run false Server.emptyDb demoRequests)))
    as Hin by (simpl; auto).
  split; [exact Hin|].
  exact (proj2 (proj2 (users_unique_and_one_admin false demoRequests))
           seededAdmin Hin eq_refl).
Defined.

(** X4.  [POST /api/init] changes nothing when it is repeated; on a store
    in which neither the code ADM001 nor the id admin-1 is taken it
    appends the administrator, and an admin login with ADM001 then
    returns that record, whatever name the request carries. *)
Theorem init_seeds_the_admin_once :
  (forall d : Server.Db,
      snd (Server.init (snd (Server.init d))) = snd (Server.init d))
  /\ (forall d : Server.Db,
      codeTaken "ADM001" (Server.users d) = false ->
      idTaken "admin-1" (Server.users d) = false ->
      Server.init d
      = (Server.Json true,
         Server.setUsers (Server.users d ++ [seededAdmin]) d)
      /\ forall (name : option string) (uuid : string),
          Server.login (Server.mkLoginBody (Some "ADM001") name (Some "ADMIN"))
                       uuid (snd (Server.init d))
          = (Server.Json seededAdmin, snd (Server.init d))).
Proof.
  split.
  - intros d. unfold Server.init at 2 3.
    destruct (Server.findOne _ (Server.users d)) eqn:Hf.
    + cbn [snd]. unfold Server.init. now rewrite Hf.
    + destruct (Server.create _ _ _ _) as [e|l] eqn:Hc; cbn [snd].
      * unfold Server.init. now rewrite Hf, Hc.
      * apply create_inr in Hc as (-> & _ & _).
        unfold Server.init, Server.findOne in *.
        cbn [Server.setUsers Server.users]. fold seededAdmin.
        rewrite (find_app_hit _ _ [] seededAdmin Hf eq_refl). reflexivity.
  - intros d Hcode Hid.
    assert (Server.init d
            = (Server.Json true,
               Server.setUsers (Server.users d ++ [seededAdmin]) d)) as E.
    { unfold Server.init, Server.findOne.
      rewrite (find_existsb_false _ _ Hcode).
      unfold Server.create. cbn [Server.validUser negb].
      replace (existsb _ (Server.users d)) with false; [reflexivity|].
      symmetry. unfold codeTaken, idTaken in *.
      induction (Server.users d) as [|x r IH]; simpl in *; [reflexivity|].
      apply orb_false_elim in Hcode as [Hc1 Hc2], Hid as [Hi1 Hi2].
      unfold Server.clashUser at 1. simpl. rewrite Hc1, Hi1. simpl. auto. }
    split; [exact E|]. intros name uuid. rewrite E. cbn [snd].
    unfold Server.login. cbn [Server.lb_employeeId Server.lb_role str truthy].
    cbn [String.eqb Ascii.eqb Bool.eqb negb].
    unfold Server.findOne. cbn [Server.setUsers Server.users].
    rewrite (find_app_hit _ _ [] seededAdmin); [reflexivity| |reflexivity].
    apply find_existsb_false. revert Hcode. apply existsb_weaken.
    intros x Hx. now apply andb_prop in Hx as [Hx _].
Qed.

Lemma init_seeds_the_admin_once_witness :
  codeTaken "ADM001" (Server.users Server.emptyDb) = false
  /\ Server.init Server.emptyDb
     = (Server.Json true, Server.mkDb [seededAdmin] [] [])
  /\ Server.login (Server.mkLoginBody (Some "ADM001") (Some "Eve")
                                      (Some "ADMIN"))
                  "u9" (snd (Server.init Server.emptyDb))
     = (Server.Json seededAdmin, Server.mkDb [seededAdmin] [] []).
Proof.
  destruct (proj2 init_seeds_the_admin_once Server.emptyDb eq_refl eq_refl)
    as [Hinit Hlogin].
  split; [reflexivity|]. split; [exact Hinit|].
  exact (Hlogin (Some "Eve") "u9").
Defined.

(** X5.  When some user already holds the code ADM001,
    [POST /api/init] answers success without creating anyone; if none of
    its holders has the role ADMIN, every admin login with ADM001 is then
    answered 401. *)
Theorem init_skipped_when_code_is_taken :
  forall d : Server.Db,
    codeTaken "ADM001" (Server.users d) = true ->
    Server.init d = (Server.Json true, d)
    /\ ((forall u, In u (Server.users d) -> u_employeeId u = "ADM001" ->
                   u_role u <> "ADMIN") ->
        forall (name : option string) (uuid : string),
          Server.login (Server.mkLoginBody (Some "ADM001") name (Some "ADMIN"))
                       uuid (snd (Server.init d))
          = (Server.Status 401 "Invalid admin credentials", d)).
Proof.
  intros d Hcode.
  assert (Server.init d = (Server.Json true, d)) as E.
  { unfold Server.init, Server.findOne.
    destruct (find _ (Server.users d)) eqn:Hf; [reflexivity|].
    apply find_existsb_false_inv in Hf. unfold codeTaken in Hcode. congruence. }
  split; [exact E|]. intros Hrole name uuid. rewrite E. cbn [snd].
  unfold Server.login. cbn [Server.lb_employeeId Server.lb_role str truthy].
  cbn [String.eqb Ascii.eqb Bool.eqb negb]. unfold Server.findOne.
  destruct (find _ (Server.users d)) as [u|] eqn:Hf; [|reflexivity].
  apply find_some in Hf as [Hin Hu]. apply andb_prop in Hu as [Hc Hr].
  apply String.eqb_eq in Hc, Hr. exfalso. exact (Hrole u Hin Hc Hr).
Qed.

Lemma init_skipped_when_code_is_taken_witness :
  let d := Server.run false Server.emptyDb
             [Server.Login (Server.employeeRequest "ADM001" (Some "Eve") None)
                           "u1"] in
  codeTaken "ADM001" (Server.users d) = true
  /\ Server.init d = (Server.Json true, d)
  /\ Server.login (Server.mkLoginBody (Some "ADM001") None (Some "ADMIN")) "u2"
                  (snd (Server.init d))
     = (Server.Status 401 "Invalid admin credentials", d).
Proof.
  intros d.
  destruct (init_skipped_when_code_is_taken d eq_refl) as [Hinit Hlogin].
  split; [reflexivity|]. split; [exact Hinit|].
  apply Hlogin. intros u [<-|[]] _. discriminate.
Defined.

(** X6.  An admin login never creates or changes a record, whatever name
    it carries, and the user it returns is a stored user with the role
    ADMIN and the requested code. *)
Theorem admin_login_never_registers :
  forall (d : Server.Db) (body : Server.LoginBody) (uuid : string),
    Server.lb_role body = Some "ADMIN" ->
    snd (Server.login body uuid d) = d
    /\ forall u, fst (Server.login body uuid d) = Server.Json u ->
                 In u (Server.users d) /\ u_role u = "ADMIN"
                 /\ Server.lb_employeeId body = Some (u_employeeId u).
Proof.
  intros d body uuid Hrole. unfold Server.login. rewrite Hrole.
  cbn [str String.eqb Ascii.eqb Bool.eqb].
  destruct (Server.lb_employeeId body) as [e|]; cbn [truthy negb str];
    [|split; [reflexivity|discriminate]].
  destruct (negb (String.eqb e "")); cbn [negb];
    [|split; [reflexivity|discriminate]].
  unfold Server.findOne.
  destruct (find _ (Server.users d)) as [a|] eqn:Hf;
    [|split; [reflexivity|discriminate]].
  split; [reflexivity|]. intros u [= <-].
  apply find_some in Hf as [Hin Ha]. apply andb_prop in Ha as [Hc Hr].
  apply String.eqb_eq in Hc, Hr. subst e. auto.
Qed.

Lemma admin_login_never_registers_witness :
  Server.login (Server.mkLoginBody (Some "ADM001") (Some "Mallory")
                                   (Some "ADMIN")) "u9" demoDb
  = (Server.Json seededAdmin, demoDb)
  /\ snd (Server.login (Server.mkLoginBody (Some "EMP1") (Some "Ann")
                                           (Some "ADMIN")) "u9" demoDb)
     = demoDb.
Proof.
  split; [reflexivity|].
  exact (proj1 (admin_login_never_registers demoDb
                  (Server.mkLoginBody (Some "EMP1") (Some "Ann") (Some "ADMIN"))
                  "u9" eq_refl)).
Defined.

(** X7.  An employee login with a code that is held, but by no user with
    the role EMPLOYEE, is answered 401 without a name, and with a name it
    is answered 500: the registration hits the unique index of the
    employee codes.  The store is unchanged in both cases. *)
Theorem employee_login_with_a_held_code :
  forall (d : Server.Db) (e uuid : string) (name role : option string),
    truthy (Some e) = true ->
    String.eqb (str role) "ADMIN" = false ->
    codeTaken e (Server.users d) = true ->
    (forall u, In u (Server.users d) -> u_employeeId u = e ->
               u_role u <> "EMPLOYEE") ->
    (truthy name = false ->
     Server.login (Server.employeeRequest e name role) uuid d
     = (Server.Status 401
          "User not found. Please provide name for first login.", d))
    /\ (truthy name = true -> Server.required uuid = true ->
        Server.login (Server.employeeRequest e name role) uuid d
        = (Server.Caught Server.DuplicateKey, d)).
Proof.
  intros d e uuid name role He Hr Hheld Hrole.
  assert (find (fun u => String.eqb (u_employeeId u) e
                         && String.eqb (u_role u) "EMPLOYEE")
               (Server.users d) = None) as Hf.
  { destruct (find _ (Server.users d)) as [u|] eqn:Hf; [|reflexivity].
    apply find_some in Hf as [Hin Hu]. apply andb_prop in Hu as [Hc Hro].
    apply String.eqb_eq in Hc, Hro. exfalso. exact (Hrole u Hin Hc Hro). }
  unfold Server.login, Server.employeeRequest.
  cbn [Server.lb_employeeId Server.lb_name Server.lb_role str].
  rewrite He, Hr. cbn [negb]. unfold Server.findOne. rewrite Hf.
  cbn [isSome negb andb]. split.
  - intros ->. reflexivity.
  - intros -> Hu. unfold Server.create, Server.validUser.
    cbn [u_id u_employeeId u_role]. rewrite Hu.
    change (Server.required e) with (truthy (Some e)). rewrite He.
    cbn [Server.enum existsb String.eqb Ascii.eqb Bool.eqb andb orb negb].
    now rewrite (ServerMore.clashUser_code_taken
                   (mkUser uuid name e "EMPLOYEE") (Server.users d) Hheld).
Qed.

Lemma employee_login_with_a_held_code_witness :
  codeTaken "ADM001" (Server.users demoDb) = true
  /\ Server.login (Server.employeeRequest "ADM001" None None) "u9" demoDb
     = (Server.Status 401
          "User not found. Please provide name for first login.", demoDb)
  /\ Server.login (Server.employeeRequest "ADM001" (Some "Eve") None) "u9"
                  demoDb
     = (Server.Caught Server.DuplicateKey, demoDb).
Proof.
  assert (forall u, In u (Server.users demoDb) -> u_employeeId u = "ADM001" ->
                    u_role u <> "EMPLOYEE") as Hrole
    by (intros u [<-|[<-|[]]]; simpl; congruence).
  destruct (employee_login_with_a_held_code demoDb "ADM001" "u9" None None
              eq_refl eq_refl eq_refl Hrole) as [Hnone _].
  destruct (employee_login_with_a_held_code demoDb "ADM001" "u9" (Some "Eve")
              None eq_refl eq_refl eq_refl Hrole) as [_ Hname].
  split; [reflexivity|]. split; [exact (Hnone eq_refl)|].
  exact (Hname eq_refl eq_refl).
Defined.

(** X8.  A session started by an administrator under an unused id is the
    one that [GET /api/sessions/active] returns; ending it by that id
    returns it inactive with the end time, and after that no session is
    active. *)
Theorem started_session_is_active_until_ended :
  forall (b : bool) (d : Server.Db) (userId : option string) (uuid : string)
         (t1 t2 : Z),
    Server.isAdmin (Server.findOne (Server.byId b userId) (Server.users d))
    = true ->
    Server.required uuid = true ->
    existsb (hasId uuid) (Server.sessions d) = false ->
    let d1 := snd (Server.startSession b userId uuid t1 d) in
    let d2 := snd (Server.endSession uuid t2 d1) in
    Server.getActiveSession None d1
    = Server.Json (Some (mkSession uuid t1 None true 0))
    /\ fst (Server.endSession uuid t2 d1)
       = Server.Json (Some (mkSession uuid t1 (Some t2) false 0))
    /\ Server.getActiveSession None d2 = Server.Json None
    /\ activeSessions (Server.sessions d2) = [].
Proof.
  intros b d userId uuid t1 t2 Ha Hu Hid d1 d2. subst d2 d1.
  rewrite (ServerRoutes.srv_startSession_admin b d userId uuid t1 Ha Hu Hid).
  cbn [snd].
  set (um := Server.updateMany s_isActive deactivate (Server.sessions d)).
  set (new := mkSession uuid t1 None true 0).
  assert (find s_isActive um = None) as Hact
    by apply ServerMore.find_active_updateMany.
  assert (find (hasId uuid) um = None) as Hnone
    by now apply ServerMore.find_hasId_updateMany.
  assert (hasId uuid new = true) as Hnew
    by (unfold hasId; simpl; apply String.eqb_refl).
  unfold Server.getActiveSession, Server.endSession, Server.findOneAndUpdate,
    Server.findOne.
  cbn [truthy andb Server.setSessions Server.sessions fst snd].
  rewrite (find_app_hit _ um [] new Hact eq_refl).
  rewrite (find_app_hit _ um [] new Hnone Hnew).
  rewrite (updateFirst_app_miss _ _ um [new] Hnone).
  cbn [option_map updateFirst]. rewrite Hnew.
  split; [reflexivity|]. split; [reflexivity|]. split.
  - rewrite (find_app_None _ um _ Hact). reflexivity.
  - rewrite active_app. unfold um. rewrite ServerFacts.active_updateMany.
    reflexivity.
Qed.

Lemma started_session_is_active_until_ended_witness :
  let d1 := snd (Server.startSession false (Some "admin-1") "s2" 20 demoDb) in
  Server.getActiveSession None d1
  = Server.Json (Some (mkSession "s2" 20 None true 0))
  /\ Server.getActiveSession None (snd (Server.endSession "s2" 30 d1))
     = Server.Json None.
Proof.
  intros d1.
  destruct (started_session_is_active_until_ended false demoDb (Some "admin-1")
              "s2" 20 30 eq_refl eq_refl eq_refl) as (H1 & _ & H3 & _).
  split; [exact H1|exact H3].
Defined.

(** X9.  Through every sequence of requests the record at a place of the
    sessions collection keeps its id and start time, does not become
    active again once it is inactive, and its counter never goes down. *)
Theorem sessions_never_reopen :
  forall (b : bool) (d : Server.Db) (rs : list Server.Request) (i : nat)
         (s : Session),
    nth_error (Server.sessions d) i = Some s ->
    exists s',
      nth_error (Server.sessions (Server.run b d rs)) i = Some s'
      /\ s_id s' = s_id s /\ s_startTime s' = s_startTime s
      /\ (s_isActive s = false -> s_isActive s' = false)
      /\ s_totalVotes s <= s_totalVotes s'.
Proof.
  intros b d rs i s H.
  destruct (ServerMore.srv_run_evolves b rs d i s H) as (s' & Hs' & He).
  exists s'. split; [exact Hs'|exact He].
Qed.

Lemma sessions_never_reopen_witness :
  nth_error (Server.sessions endedDb) 0 = Some (mkSession "s1" 0 (Some 10) false 1)
  /\ exists s',
      nth_error (Server.sessions (Server.run false endedDb reopenRequests)) 0
      = Some s'
      /\ s_isActive s' = false /\ 1 <= s_totalVotes s'.
Proof.
  split; [reflexivity|].
  destruct (sessions_never_reopen false endedDb reopenRequests 0%nat
              (mkSession "s1" 0 (Some 10) false 1) eq_refl)
    as (s' & Hs' & _ & _ & Hact & Hcount).
  exists s'. split; [exact Hs'|]. split; [exact (Hact eq_refl)|exact Hcount].
Defined.

(** * Properties of the web client *)

Module ClientFacts.
Import Server.

Lemma getActive_is_first_active (d : Db) :
  Client.getActive d = inr (findOne s_isActive (sessions d)).
Proof. reflexivity. Qed.

Lemma srv_castVote_cases (body : VoteBody) (uuid : string) (now : Z) (d : Db) :
  let newVote := mkVote uuid (str (vb_sessionId body)) (str (vb_userId body))
                        (vb_userName body) (str (vb_type body)) now in
  (fst (castVote body uuid now d) = Json newVote
   /\ votes (snd (castVote body uuid now d)) = (votes d ++ [newVote])%list
   /\ users (snd (castVote body uuid now d)) = users d)
  \/ (snd (castVote body uuid now d) = d
      /\ forall v, fst (castVote body uuid now d) <> Json v).
Proof.
  unfold castVote.
  destruct (_ || _); [right; split; [reflexivity|discriminate]|].
  destruct (findOne _ (votes d)); [right; split; [reflexivity|discriminate]|].
  destruct (create _ _ _ _) as [e|vs] eqn:Hc;
    [right; split; [reflexivity|discriminate]|].
  apply create_inr in Hc as (-> & _ & _). left. auto.
Qed.

Lemma active_after_ending_first (now : Z) (ss : list Session) (a : Session) :
  find s_isActive ss = Some a -> NoDup (map s_id ss) ->
  atMostOneActive ss ->
  activeSessions (updateFirst (hasId (s_id a)) (ended now) ss) = [].
Proof.
  unfold atMostOneActive, activeSessions.
  induction ss as [|x r IH]; simpl; [discriminate|].
  intros Hf Hnd Hle. inversion Hnd as [|? ? Hx Hr]; subst.
  destruct (s_isActive x) eqn:Ex.
  - injection Hf as <-. unfold hasId at 1. rewrite String.eqb_refl. simpl.
    simpl in Hle. destruct (filter s_isActive r); [reflexivity|simpl in Hle; lia].
  - assert (hasId (s_id a) x = false) as Hne.
    { unfold hasId. apply String.eqb_neq. intros E. apply Hx.
      rewrite E. apply in_map. now apply find_some in Hf as [Hf _]. }
    rewrite Hne. simpl. rewrite Ex. now apply IH.
Qed.

End ClientFacts.

(** X10.  [app.castVote] of the web client sends nothing when no session
    is active, and a vote it stores is a vote of the logged-in user in
    the session that was active; it never touches the users. *)
Theorem client_votes_only_in_the_active_session :
  forall (d : Server.Db) (user : option User) (type uuid : string) (now : Z),
    let r := Client.castVote user type uuid now d in
    (Server.findOne s_isActive (Server.sessions d) = None ->
     r = (Client.Nothing, d))
    /\ (forall v, In v (Server.votes (snd r)) ->
          In v (Server.votes d)
          \/ exists s u,
              Server.findOne s_isActive (Server.sessions d) = Some s
              /\ user = Some u
              /\ v = mkVote uuid (s_id s) (u_id u) (u_name u) type now)
    /\ (fst r = Client.SuccessToast "Vote Cast Successfully!" ->
        exists s u,
          Server.findOne s_isActive (Server.sessions d) = Some s
          /\ user = Some u
          /\ Server.votes (snd r)
             = (Server.votes d
                ++ [mkVote uuid (s_id s) (u_id u) (u_name u) type now])%list)
    /\ Server.users (snd r) = Server.users d.
Proof.
  intros d user type uuid now r. subst r. unfold Client.castVote.
  rewrite ClientFacts.getActive_is_first_active.
  destruct (Server.findOne s_isActive (Server.sessions d)) as [s|];
    [|repeat split; auto; discriminate].
  destruct user as [u|];
    [|repeat split; auto; discriminate].
  set (body := Server.mkVoteBody (Some (s_id s)) (Some (u_id u)) (u_name u)
                                 (Some type)).
  pose proof (ClientFacts.srv_castVote_cases body uuid now d) as Hc.
  destruct (Server.castVote body uuid now d) as [reply d'] eqn:E.
  cbn [fst snd] in Hc. cbn [Server.vb_sessionId Server.vb_userId
    Server.vb_userName Server.vb_type body str] in Hc.
  destruct Hc as [(Hr & Hv & Hu)|[-> Hr]].
  - rewrite Hr. cbn [Client.request fst snd]. rewrite Hv, Hu.
    repeat split; [discriminate| |eauto].
    intros v Hin. apply in_app_or in Hin as [Hin|[<-|[]]]; [auto|].
    right. eauto.
  - assert (forall A (x y : A),
              snd match Client.request reply with
                  | inl e => (Client.ErrorToast e, x)
                  | inr _ => (Client.SuccessToast "Vote Cast Successfully!", y)
                  end = match Client.request reply with
                        | inl _ => x | inr _ => y end) as Hsnd
      by (intros; now destruct (Client.request reply)).
    repeat split.
    + discriminate.
    + intros v. destruct (Client.request reply); cbn [snd]; auto.
    + destruct reply as [v| |]; cbn [Client.request fst];
        [now destruct (Hr v)|discriminate|discriminate].
    + now destruct (Client.request reply).
Qed.

Lemma client_votes_only_in_the_active_session_witness :
  Server.findOne s_isActive (Server.sessions endedDb) = None
  /\ Client.castVote (Some ann) "TEA" "v2" 50 endedDb = (Client.Nothing, endedDb)
  /\ Client.castVote (Some seededAdmin) "TEA" "v2" 5 demoDb
     = (Client.SuccessToast "Vote Cast Successfully!",
        Server.mkDb [Local.ADMIN_USER; ann] [mkSession "s1" 0 None true 2]
          [annVote;
           mkVote "v2" "s1" "admin-1" (Some "Event Manager") "TEA" 5]).
Proof.
  split; [reflexivity|]. split; [|reflexivity].
  exact (proj1 (client_votes_only_in_the_active_session endedDb (Some ann)
                  "TEA" "v2" 50) eq_refl).
Defined.

(** ** Ids that are one segment of the path *)

Module HttpFacts.
Import Http.

Lemma plain_char (c : ascii) :
  plain c = true ->
  isTabOrNewline c = false /\ isSlash c = false
  /\ (isCode 63 c || isCode 35 c) = false /\ isCode 37 c = false
  /\ percentEncode c = String c "" /\ between 0 127 c = true
  /\ Ascii.eqb (lowerChar c) "%" = false
  /\ Ascii.eqb (lowerChar c) "." = Ascii.eqb c ".".
Proof.
  destruct c as [[] [] [] [] [] [] [] []]; vm_compute; intros H;
    try discriminate H; repeat split.
Qed.

Lemma append_assoc (a b c : string) : (a ++ b) ++ c = a ++ (b ++ c).
Proof. induction a as [|x a IH]; simpl; [reflexivity|now rewrite IH]. Qed.

Lemma append_empty (a : string) : a ++ "" = a.
Proof. induction a as [|x a IH]; simpl; [reflexivity|now rewrite IH]. Qed.

Lemma removeTabsAndNewlines_plain (s rest : string) :
  allPlain s = true ->
  removeTabsAndNewlines (s ++ rest) = s ++ removeTabsAndNewlines rest.
Proof.
  induction s as [|c s IH]; cbn [allPlain append removeTabsAndNewlines];
    [reflexivity|].
  intros H. apply andb_prop in H as [Hc Hs].
  destruct (plain_char c Hc) as (-> & _). now rewrite IH.
Qed.

Lemma pathState_plain (s : string) :
  allPlain s = true ->
  forall (path : list string) (buffer rest : string),
    pathState path buffer (s ++ rest) = pathState path (buffer ++ s) rest.
Proof.
  induction s as [|c s IH]; cbn [allPlain append pathState]; intros H path buffer rest.
  - now rewrite append_empty.
  - apply andb_prop in H as [Hc Hs].
    destruct (plain_char c Hc) as (_ & -> & -> & _ & -> & _).
    rewrite (IH Hs), append_assoc. reflexivity.
Qed.

Lemma lower_empty (s : string) : String.eqb (lower s) "" = String.eqb s "".
Proof. now destruct s. Qed.

(** A segment of plain characters is a dot segment only if it is [.] or
    [..] itself. *)
Lemma dots_plain (s : string) :
  allPlain s = true ->
  isSingleDot s = String.eqb s "." /\ isDoubleDot s = String.eqb s "..".
Proof.
  unfold isSingleDot, isDoubleDot.
  destruct s as [|c1 s1]; [split; reflexivity|].
  cbn [allPlain]. intros H. apply andb_prop in H as [H1 Hs1].
  destruct (plain_char c1 H1) as (_ & _ & _ & _ & _ & _ & Hp1 & Hd1).
  cbn [lower existsb String.eqb]. rewrite Hp1, Hd1, lower_empty.
  cbn [andb orb]. rewrite !orb_false_r. split; [reflexivity|].
  destruct (Ascii.eqb c1 "."); [|reflexivity]. cbn [andb].
  destruct s1 as [|c2 s2]; [reflexivity|].
  cbn [allPlain] in Hs1. apply andb_prop in Hs1 as [H2 _].
  destruct (plain_char c2 H2) as (_ & _ & _ & _ & _ & _ & Hp2 & Hd2).
  cbn [lower String.eqb]. rewrite Hp2, Hd2, lower_empty.
  cbn [andb orb]. now rewrite orb_false_r.
Qed.

Lemma pathSafe_allPlain (id : string) : pathSafe id = true -> allPlain id = true.
Proof. unfold pathSafe. intros H. now apply andb_prop in H as [H _]. Qed.

Lemma closeSegment_safe (path : list string) (id : string) (slash : bool) :
  pathSafe id = true -> closeSegment path id slash = (path ++ [id])%list.
Proof.
  intros H. unfold pathSafe in H. apply andb_prop in H as [Hp Hn].
  destruct (dots_plain id Hp) as [H1 H2].
  unfold closeSegment. rewrite H1, H2.
  cbn [existsb] in Hn. apply negb_true_iff in Hn.
  apply orb_false_elim in Hn as [_ Hn].
  apply orb_false_elim in Hn as [Hn1 Hn].
  apply orb_false_elim in Hn as [Hn2 _].
  now rewrite Hn1, Hn2.
Qed.

Lemma unescape_plain (s : string) :
  allPlain s = true -> unescape s = Some s.
Proof.
  induction s as [|c s IH]; cbn [allPlain unescape]; [reflexivity|].
  intros H. apply andb_prop in H as [Hc Hs].
  destruct (plain_char c Hc) as (_ & _ & _ & -> & _). now rewrite IH.
Qed.

Lemma utf8_plain (s : string) : allPlain s = true -> utf8 s = true.
Proof.
  induction s as [|c s IH]; cbn [allPlain utf8]; [reflexivity|].
  intros H. apply andb_prop in H as [Hc Hs].
  destruct (plain_char c Hc) as (_ & _ & _ & _ & _ & -> & _). auto.
Qed.

Lemma param_safe {A : Type} (id : string) (found : string -> A) (bad no : A) :
  pathSafe id = true -> param id found bad no = found id.
Proof.
  intros H. pose proof (pathSafe_allPlain id H) as Hp.
  unfold pathSafe in H. apply andb_prop in H as [_ Hn].
  cbn [existsb] in Hn. apply negb_true_iff in Hn.
  apply orb_false_elim in Hn as [Hn _].
  unfold param, decodeURIComponent.
  now rewrite Hn, (unescape_plain id Hp), (utf8_plain id Hp).
Qed.

(** The path of the request of [api.sessions.end], up to the id. *)
Lemma pathOf_end (id : string) :
  pathOf (url (endEndpoint id))
  = pathState ["api"; "sessions"] ""
              (removeTabsAndNewlines (id ++ "/end")).
Proof. reflexivity. Qed.

(** A safe id is the parameter of the end route. *)
Lemma endArrival_safe (id : string) :
  pathSafe id = true -> endArrival id = AtEnd id.
Proof.
  intros H. pose proof (pathSafe_allPlain id H) as Hp.
  unfold endArrival. rewrite pathOf_end.
  rewrite (removeTabsAndNewlines_plain id "/end" Hp).
  rewrite (pathState_plain id Hp).
  change (pathState ["api"; "sessions"] ("" ++ id)
                    (removeTabsAndNewlines "/end"))
    with (closeSegment (closeSegment ["api"; "sessions"] id true) "end" false).
  rewrite (closeSegment_safe _ id true H).
  change (closeSegment (["api"; "sessions"] ++ [id]) "end" false)
    with ["api"; "sessions"; id; "end"].
  change (routePost ["api"; "sessions"; id; "end"])
    with (if String.eqb "start" (lower id) && false then AtStart
          else param id AtEnd PostBadParam PostNoRoute).
  rewrite andb_false_r. now apply param_safe.
Qed.

(** An id with a slash between two safe parts names no route. *)
Lemma endArrival_slash (a b : string) :
  pathSafe a = true -> pathSafe b = true ->
  endArrival (a ++ "/" ++ b) = PostNoRoute.
Proof.
  intros Ha Hb.
  pose proof (pathSafe_allPlain a Ha) as Hpa.
  pose proof (pathSafe_allPlain b Hb) as Hpb.
  unfold endArrival. rewrite pathOf_end, !append_assoc.
  rewrite (removeTabsAndNewlines_plain a _ Hpa).
  change (removeTabsAndNewlines ("/" ++ b ++ "/end"))
    with (String "/" (removeTabsAndNewlines (b ++ "/end"))).
  rewrite (removeTabsAndNewlines_plain b "/end" Hpb).
  rewrite (pathState_plain a Hpa).
  change (pathState ["api"; "sessions"] ("" ++ a)
                    (String "/" (b ++ removeTabsAndNewlines "/end")))
    with (pathState (closeSegment ["api"; "sessions"] a true) ""
                    (b ++ removeTabsAndNewlines "/end")).
  rewrite (closeSegment_safe _ a true Ha), (pathState_plain b Hpb).
  change (pathState (["api"; "sessions"] ++ [a]) ("" ++ b)
                    (removeTabsAndNewlines "/end"))
    with (closeSegment (closeSegment ["api"; "sessions"; a] b true)
                       "end" false).
  rewrite (closeSegment_safe _ b true Hb).
  change (closeSegment (["api"; "sessions"; a] ++ [b]) "end" false)
    with ["api"; "sessions"; a; b; "end"].
  change (routePost ["api"; "sessions"; a; b; "end"])
    with (if String.eqb "start" (lower a) && false then AtStart
          else PostNoRoute).
  now rewrite andb_false_r.
Qed.

End HttpFacts.

(** X11.  The request of [app.endSession] carries the id of the active
    session in its path.  On a store with pairwise distinct session ids
    whose active session has an id that is one path segment as it stands,
    [app.endSession] of the web client shows its toast, leaves every
    inactive session as it is, in particular with its end time, and
    leaves users and votes; when at most one session was active, none is
    active afterwards.  When the id has a slash between two such parts,
    the request names no route: the client shows the error of the
    unreadable answer and the store is unchanged, so the session stays
    active. *)
Theorem client_endSession_ends_only_the_active_session :
  (forall (d : Server.Db) (now : Z),
      NoDup (map s_id (Server.sessions d)) ->
      (forall s, Server.findOne s_isActive (Server.sessions d) = Some s ->
                 Http.pathSafe (s_id s) = true) ->
      exists d',
        Client.endSession now d
        = Client.Shows (Client.InfoToast "Session Ended") d'
        /\ (forall i s, nth_error (Server.sessions d) i = Some s ->
                        s_isActive s = false ->
                        nth_error (Server.sessions d') i = Some s)
        /\ (atMostOneActive (Server.sessions d) ->
            activeSessions (Server.sessions d') = [])
        /\ Server.users d' = Server.users d
        /\ Server.votes d' = Server.votes d)
  /\ (forall (d : Server.Db) (now : Z) (s : Session) (a b : string),
      Server.findOne s_isActive (Server.sessions d) = Some s ->
      s_id s = a ++ "/" ++ b ->
      Http.pathSafe a = true -> Http.pathSafe b = true ->
      Client.endSession now d
      = Client.Shows (Client.ErrorToast Client.NotJson) d).
Proof.
  split.
  - intros d now Hnd Hsafe. unfold Client.endSession.
    rewrite ClientFacts.getActive_is_first_active.
    destruct (Server.findOne s_isActive (Server.sessions d)) as [a|] eqn:Ha.
    + rewrite (HttpFacts.endArrival_safe (s_id a) (Hsafe a eq_refl)).
      unfold Server.endSession, Server.findOneAndUpdate.
      cbn [Client.request]. eexists. split; [reflexivity|].
      cbn [Server.setSessions Server.sessions Server.users Server.votes].
      repeat split.
      * intros i s Hs Hi. apply updateFirst_nth_other; [exact Hs|].
        unfold hasId. apply String.eqb_neq. intros E.
        apply find_some in Ha as [Hin Hact].
        assert (s = a) as ->
          by (apply (NoDup_map_eq s_id (Server.sessions d)); auto;
              now apply nth_error_In in Hs).
        congruence.
      * intros Hle. now apply ClientFacts.active_after_ending_first.
    + exists d. repeat split; auto.
      intros _. now apply find_none_filter_nil.
  - intros d now s a b Hs Hid Ha Hb. unfold Client.endSession.
    rewrite ClientFacts.getActive_is_first_active, Hs, Hid.
    now rewrite (HttpFacts.endArrival_slash a b Ha Hb).
Qed.

Lemma client_endSession_ends_only_the_active_session_witness :
  (NoDup (map s_id (Server.sessions twoSessionsDb))
   /\ atMostOneActive (Server.sessions twoSessionsDb)
   /\ Http.pathSafe "s2" = true
   /\ exists d',
       Client.endSession 30 twoSessionsDb
       = Client.Shows (Client.InfoToast "Session Ended") d'
       /\ nth_error (Server.sessions d') 0
          = Some (mkSession "s1" 0 (Some 10) false 1)
       /\ activeSessions (Server.sessions d') = [])
  /\ Client.endSession 30 slashDb
     = Client.Shows (Client.ErrorToast Client.NotJson) slashDb.
Proof.
  assert (NoDup (map s_id (Server.sessions twoSessionsDb))) as Hnd.
  { simpl. repeat constructor; simpl; intuition discriminate. }
  assert (atMostOneActive (Server.sessions twoSessionsDb)) as Hle
    by (unfold atMostOneActive; simpl; lia).
  assert (forall s,
             Server.findOne s_isActive (Server.sessions twoSessionsDb) = Some s ->
             Http.pathSafe (s_id s) = true) as Hsafe.
  { intros s Hs. injection Hs as <-. reflexivity. }
  split.
  - split; [exact Hnd|]. split; [exact Hle|]. split; [reflexivity|].
    destruct (proj1 client_endSession_ends_only_the_active_session
                twoSessionsDb 30 Hnd Hsafe)
      as (d' & Heq & Hkeep & Hnone & _ & _).
    exists d'. split; [exact Heq|]. split; [|exact (Hnone Hle)].
    exact (Hkeep 0%nat (mkSession "s1" 0 (Some 10) false 1) eq_refl eq_refl).
  - exact (proj2 client_endSession_ends_only_the_active_session slashDb 30
             (mkSession "a/b" 0 None true 0) "a" "b"
             eq_refl eq_refl eq_refl eq_refl).
Defined.

(** X12.  Whoever is logged in, [app.navigate] of the web client shows
    the login view, the admin view, or the employee view in its waiting
    state without the status poll: it never shows the voting panel. *)
Theorem client_navigate_never_offers_voting :
  forall (user : option User) (shown : EmployeePanel)
         (lastSessionId : option string) (d : Server.Db),
    Client.navigate user shown lastSessionId d = Client.LoginView
    \/ Client.navigate user shown lastSessionId d = Client.AdminView
    \/ Client.navigate user shown lastSessionId d
       = Client.EmployeeView Waiting false.
Proof.
  intros [u|] shown lastSessionId d; [|now left].
  unfold Client.navigate, Client.initEmployeeDashboard.
  destruct (String.eqb (u_role u) "ADMIN"); auto.
Qed.

(** X13.  [app.startSession] of the web client sends no userId, so its
    outcome does not depend on who is logged in.  When a filter with an
    undefined value matches no document, it is always refused with the
    403 message and the store is unchanged; when such a filter matches
    every document, it succeeds only if the first stored user is an
    ADMIN. *)
Theorem client_startSession_sends_no_requester :
  (forall (d : Server.Db) (uuid : string) (now : Z),
      Client.startSession false uuid now d
      = (Client.ErrorToast
           (Client.ErrorMessage "Only admins can start sessions"), d))
  /\ (forall (d : Server.Db) (uuid : string) (now : Z),
      fst (Client.startSession true uuid now d)
      = Client.SuccessToast "Session Started!" ->
      exists u, hd_error (Server.users d) = Some u /\ u_role u = "ADMIN").
Proof.
  split.
  - intros d uuid now. unfold Client.startSession.
    rewrite ServerRoutes.srv_startSession_forbidden; [reflexivity|].
    unfold Server.findOne, Server.byId.
    now induction (Server.users d).
  - intros d uuid now. unfold Client.startSession, Server.startSession.
    unfold Server.findOne, Server.byId.
    destruct (Server.users d) as [|u us]; [discriminate|].
    cbn [find Server.isAdmin hd_error].
    destruct (String.eqb (u_role u) "ADMIN") eqn:E; [|discriminate].
    intros _. exists u. split; [reflexivity|now apply String.eqb_eq].
Qed.

Lemma client_startSession_sends_no_requester_witness :
  Client.startSession false "s2" 20 demoDb
  = (Client.ErrorToast (Client.ErrorMessage "Only admins can start sessions"),
     demoDb)
  /\ fst (Client.startSession true "s2" 20 demoDb)
     = Client.SuccessToast "Session Started!"
  /\ exists u, hd_error (Server.users demoDb) = Some u /\ u_role u = "ADMIN".
Proof.
  split; [exact (proj1 client_startSession_sends_no_requester demoDb "s2" 20)|].
  split; [reflexivity|].
  exact (proj2 client_startSession_sends_no_requester demoDb "s2" 20 eq_refl).
Defined.

(** * Properties of the local application's dashboards *)

(** X14.  [checkEmployeeStatus] announces the start of voting exactly when
    a session is active and the tick before saw another session active.
    So the first tick announces nothing, a second tick on the same store
    announces nothing, and a session that starts after a tick without an
    active session is not announced. *)
Theorem announcement_needs_a_session_before :
  (forall (last : option string) (st : Local.State),
      snd (fst (LocalView.checkEmployeeStatus last st)) = true <->
      exists s l, Local.getActiveSession st = Some s /\ last = Some l
                  /\ l <> s_id s)
  /\ (forall st : Local.State,
      snd (fst (LocalView.checkEmployeeStatus None st)) = false)
  /\ (forall (last : option string) (st : Local.State),
      snd (fst (LocalView.checkEmployeeStatus
                  (snd (LocalView.checkEmployeeStatus last st)) st)) = false)
  /\ (forall (last : option string) (st st' : Local.State),
      Local.getActiveSession st = None ->
      snd (fst (LocalView.checkEmployeeStatus
                  (snd (LocalView.checkEmployeeStatus last st)) st')) = false).
Proof.
  split; [|split; [|split]].
  - intros last st. unfold LocalView.checkEmployeeStatus. cbn [fst snd].
    destruct (Local.getActiveSession st) as [s|]; [|split].
    + destruct last as [l|]; [|split].
      * rewrite negb_true_iff, String.eqb_neq. split.
        -- intros H. exists s, l. repeat split. congruence.
        -- intros (s' & l' & [= <-] & [= <-] & H). congruence.
      * discriminate.
      * intros (s' & l' & _ & H & _). discriminate.
    + discriminate.
    + intros (s' & l' & H & _). discriminate.
  - intros st. unfold LocalView.checkEmployeeStatus. cbn [fst snd].
    now destruct (Local.getActiveSession st).
  - intros last st. unfold LocalView.checkEmployeeStatus. cbn [fst snd].
    destruct (Local.getActiveSession st) as [s|]; [|reflexivity].
    cbn [option_map]. now rewrite String.eqb_refl.
  - intros last st st' H. unfold LocalView.checkEmployeeStatus.
    cbn [fst snd]. rewrite H. cbn [option_map].
    now destruct (Local.getActiveSession st').
Qed.

Lemma announcement_needs_a_session_before_witness :
  Local.getActiveSession endedState = None
  /\ Local.getActiveSession demoState = Some (mkSession "s1" 0 None true 1)
  /\ snd (fst (LocalView.checkEmployeeStatus
                 (snd (LocalView.checkEmployeeStatus (Some "s0") endedState))
                 demoState)) = false
  /\ snd (fst (LocalView.checkEmployeeStatus (Some "s0") demoState)) = true.
Proof.
  split; [reflexivity|]. split; [reflexivity|]. split.
  - exact (proj2 (proj2 (proj2 announcement_needs_a_session_before))
             (Some "s0") endedState demoState eq_refl).
  - apply (proj1 announcement_needs_a_session_before (Some "s0") demoState).
    exists (mkSession "s1" 0 None true 1), "s0".
    repeat split. discriminate.
Defined.

(** X15.  After a successful [castVote] the employee dashboard shows the
    voted panel, with the type of the first vote that the user has in
    that session: the type just cast when there was no earlier one. *)
Theorem local_vote_shows_on_the_dashboard :
  forall (st : Local.State) (type uuid : string) (now : Z) (v : Vote)
         (last : option string),
    fst (Local.castVote type uuid now st) = Local.VoteCast v ->
    let st' := snd (Local.castVote type uuid now st) in
    v_type v = type
    /\ exists w,
        hd_error (votesOf (v_sessionId v) (v_userId v) (Local.votes st'))
        = Some w
        /\ fst (fst (LocalView.checkEmployeeStatus last st'))
           = Some (Voted (v_type w))
        /\ (votesOf (v_sessionId v) (v_userId v) (Local.votes st) = [] ->
            w = v).
Proof.
  intros st type uuid now v last Hcast st'.
  destruct (LocalViewFacts.loc_castVote_cast st type uuid now v Hcast)
    as (session & u & Hs & Hu & Hv & Hvotes & _ & Hu' & s' & Hs' & Hid & _).
  fold st' in Hvotes, Hu', Hs'.
  split; [now rewrite Hv|].
  assert (v_sessionId v = s_id session /\ v_userId v = u_id u) as [Ev Eu]
    by (now rewrite Hv).
  rewrite Ev, Eu.
  set (mine := fun x : Vote => String.eqb (v_sessionId x) (s_id session)
                               && String.eqb (v_userId x) (u_id u)).
  assert (mine v = true) as Hmine
    by (unfold mine; now rewrite Ev, Eu, !String.eqb_refl).
  assert (exists w, find mine (Local.votes st') = Some w) as [w Hw].
  { rewrite Hvotes.
    destruct (find mine (Local.votes st)) as [w|] eqn:Hf.
    - exists w. now apply find_app_Some'.
    - exists v. now apply find_app_hit. }
  exists w. split; [|split].
  - unfold votesOf. fold mine. now rewrite <- find_hd_filter.
  - unfold LocalView.checkEmployeeStatus. cbn [fst].
    rewrite Hs', Hu', Hid. fold mine. now rewrite Hw.
  - intros Hnone. rewrite Hvotes in Hw.
    rewrite find_app_None in Hw by now apply find_filter_nil.
    simpl in Hw. rewrite Hmine in Hw. congruence.
Qed.

Lemma local_vote_shows_on_the_dashboard_witness :
  fst (fst (LocalView.checkEmployeeStatus None
              (snd (Local.castVote "TEA" "v2" 7 demoState))))
  = Some (Voted "COFFEE")
  /\ fst (fst (LocalView.checkEmployeeStatus None
                 (snd (Local.castVote "TEA" "v1" 7 freshState))))
     = Some (Voted "TEA").
Proof.
  destruct (local_vote_shows_on_the_dashboard demoState "TEA" "v2" 7
              (mkVote "v2" "s1" "e1" (Some "Ann") "TEA" 7) None eq_refl)
    as (_ & w & Hw & Hp & _).
  destruct (local_vote_shows_on_the_dashboard freshState "TEA" "v1" 7
              (mkVote "v1" "s1" "e1" (Some "Ann") "TEA" 7) None eq_refl)
    as (_ & w' & Hw' & Hp' & Hsame).
  injection Hw as <-. rewrite (Hsame eq_refl) in Hp'.
  split; [exact Hp|exact Hp'].
Defined.

(** X16.  While the admin dashboard shows the live panel, the session has
    time left, the seconds lie between 0 and 59, the minutes are not
    negative, and minutes and seconds are the time left rounded down to
    a second; the minutes are at most 10 when the session did not start
    in the future. *)
Theorem timer_shows_the_time_left :
  forall (now : Z) (st : Local.State) (stats : LocalView.LiveStats),
    LocalView.panel (LocalView.adminView now st) = LocalView.Live stats ->
    exists session,
      Local.getActiveSession st = Some session
      /\ let diff := (s_startTime session + Local.SESSION_DURATION_MS) - now in
         0 < diff
         /\ 0 <= LocalView.minutes stats
         /\ 0 <= LocalView.seconds stats <= 59
         /\ 60000 * LocalView.minutes stats + 1000 * LocalView.seconds stats
            <= diff
            < 60000 * LocalView.minutes stats + 1000 * LocalView.seconds stats
              + 1000
         /\ (s_startTime session <= now -> LocalView.minutes stats <= 10).
Proof.
  intros now st stats. unfold LocalView.adminView. cbn [LocalView.panel].
  destruct (Local.getActiveSession st) as [session|]; [|discriminate].
  destruct (_ <=? 0) eqn:Hd; [discriminate|].
  intros [= <-]. exists session. split; [reflexivity|].
  apply Z.leb_gt in Hd. unfold Local.SESSION_DURATION_MS in *.
  cbn [LocalView.minutes LocalView.seconds timer fst snd].
  set (diff := s_startTime session + 10 * 60 * 1000 - now) in *.
  rewrite (Z.rem_mod_nonneg diff 60000) by lia.
  pose proof (Z.div_mod diff 60000 ltac:(lia)) as E1.
  pose proof (Z.mod_pos_bound diff 60000 ltac:(lia)) as B1.
  pose proof (Z.div_mod (diff mod 60000) 1000 ltac:(lia)) as E2.
  pose proof (Z.mod_pos_bound (diff mod 60000) 1000 ltac:(lia)) as B2.
  assert (0 <= diff / 60000) by (apply Z.div_pos; lia).
  assert (0 <= diff mod 60000 / 1000) by (apply Z.div_pos; lia).
  repeat split; lia.
Qed.

Lemma timer_shows_the_time_left_witness :
  LocalView.panel (LocalView.adminView 75500 demoState)
  = LocalView.Live (LocalView.mkLiveStats 8 44 1 0 [])
  /\ 60000 * 8 + 1000 * 44 <= 0 + 600000 - 75500 < 60000 * 8 + 1000 * 44 + 1000.
Proof.
  split; [reflexivity|].
  destruct (timer_shows_the_time_left 75500 demoState
              (LocalView.mkLiveStats 8 44 1 0 []) eq_refl)
    as (session & Hs & _ & _ & _ & Hb & _).
  injection Hs as <-. exact Hb.
Defined.

(** X17.  After a successful [castVote] the voter is not in the pending
    list of the admin dashboard, and every user in that list is a stored
    user with the role EMPLOYEE. *)
Theorem local_voter_is_not_pending :
  forall (st : Local.State) (type uuid : string) (now now' : Z) (v : Vote)
         (stats : LocalView.LiveStats),
    fst (Local.castVote type uuid now st) = Local.VoteCast v ->
    LocalView.panel
      (LocalView.adminView now' (snd (Local.castVote type uuid now st)))
    = LocalView.Live stats ->
    forall p, In p (LocalView.pending stats) ->
              In p (Local.users st) /\ u_role p = "EMPLOYEE"
              /\ u_id p <> v_userId v.
Proof.
  intros st type uuid now now' v stats Hcast.
  destruct (LocalViewFacts.loc_castVote_cast st type uuid now v Hcast)
    as (session & u & Hs & Hu & Hv & Hvotes & Husers & _ & s' & Hs' & Hid & _).
  unfold LocalView.adminView. cbn [LocalView.panel]. rewrite Hs'.
  destruct (_ <=? 0); [discriminate|]. intros [= <-] p.
  cbn [LocalView.pending]. unfold pendingUsers.
  rewrite Husers, Hvotes, Hid. intros Hp.
  apply filter_In in Hp as [Hp Hnot]. apply filter_In in Hp as [Hin Hrole].
  apply String.eqb_eq in Hrole. repeat split; auto.
  intros E. apply negb_true_iff in Hnot.
  assert (existsb (fun x => String.eqb (v_userId x) (u_id p))
                  (sessionVotes (s_id session) (Local.votes st ++ [v]))
          = true) as Hex.
  { apply existsb_exists. exists v. split.
    - unfold sessionVotes. apply filter_In. split.
      + apply in_or_app. right. now left.
      + rewrite Hv. simpl. apply String.eqb_refl.
    - rewrite E. apply String.eqb_refl. }
  congruence.
Qed.

Lemma local_voter_is_not_pending_witness :
  LocalView.panel (LocalView.adminView 9 freshState)
  = LocalView.Live (LocalView.mkLiveStats 9 59 0 0 [ann])
  /\ LocalView.panel
       (LocalView.adminView 9 (snd (Local.castVote "TEA" "v1" 7 freshState)))
     = LocalView.Live (LocalView.mkLiveStats 9 59 0 1 [])
  /\ forall p, In p [] -> u_id p <> "e1".
Proof.
  split; [reflexivity|]. split; [reflexivity|].
  intros p Hp.
  exact (proj2 (proj2 (local_voter_is_not_pending freshState "TEA" "v1" 7 9
                         (mkVote "v1" "s1" "e1" (Some "Ann") "TEA" 7)
                         (LocalView.mkLiveStats 9 59 0 1 [])
                         eq_refl eq_refl p Hp))).
Defined.

(** X18.  A confirmed [deleteSession] removes every session with that id
    and exactly the votes that refer to it: the other votes stay, in
    their order, as do the ids of the other sessions and the users.  An
    unconfirmed one changes nothing. *)
Theorem deleteSession_removes_session_and_votes :
  forall (st : Local.State) (sessionId : string) (now : Z),
    Local.deleteSession sessionId false now st = st
    /\ let st' := Local.deleteSession sessionId true now st in
       ~ In sessionId (map s_id (Local.sessions st'))
       /\ map s_id (Local.sessions st')
          = filter (fun id => negb (String.eqb id sessionId))
                   (map s_id (Local.sessions st))
       /\ Local.votes st'
          = filter (fun v => negb (String.eqb (v_sessionId v) sessionId))
                   (Local.votes st)
       /\ votesFor sessionId (Local.votes st') = 0
       /\ Local.users st' = Local.users st.
Proof.
  intros st sessionId now. split; [reflexivity|].
  unfold Local.deleteSession. cbn [negb].
  set (st1 := Local.setVotes _ _).
  assert (map s_id (Local.sessions (Local.updateAdminUI now st1))
          = filter (fun id => negb (String.eqb id sessionId))
                   (map s_id (Local.sessions st))) as Hids.
  { apply (LocalFacts.updateAdminUI_closed
             (fun s => map s_id (Local.sessions s) = _));
      [intros s; apply LocalViewFacts.loc_endActive_ids|].
    subst st1. simpl. apply map_filter_ids. }
  assert (Local.votes (Local.updateAdminUI now st1)
          = filter (fun v => negb (String.eqb (v_sessionId v) sessionId))
                   (Local.votes st)) as Hvotes.
  { apply (LocalFacts.updateAdminUI_closed (fun s => Local.votes s = _));
      [intros s; apply LocalViewFacts.loc_endActive_votes|reflexivity]. }
  split; [|split; [exact Hids|split; [exact Hvotes|split]]].
  - rewrite Hids. intros Hin. apply filter_In in Hin as [_ Hne].
    now rewrite String.eqb_refl in Hne.
  - rewrite Hvotes. apply votesFor_deleted.
  - now rewrite LocalLogin.loc_updateAdminUI_users.
Qed.

(** X19.  After the dashboard refresh, and after [endSession], the session
    that is found active, if any, has time left at the clock reading of
    the call; so the refreshed dashboard does not show time up. *)
Theorem refresh_leaves_no_expired_session :
  forall (now : Z) (st : Local.State),
    (forall s, Local.getActiveSession (Local.updateAdminUI now st) = Some s ->
               Local.expired now s = false)
    /\ (forall s, Local.getActiveSession (Local.endSession now st) = Some s ->
                  Local.expired now s = false)
    /\ LocalView.panel (LocalView.adminView now (Local.updateAdminUI now st))
       <> LocalView.TimeUp.
Proof.
  intros now st. split; [|split].
  - intros s. apply LocalViewFacts.loc_updateAdminUI_no_expired.
  - intros s. apply LocalViewFacts.loc_endSession_no_expired.
  - unfold LocalView.adminView. cbn [LocalView.panel].
    destruct (Local.getActiveSession (Local.updateAdminUI now st)) as [s|]
      eqn:Hs; [|discriminate].
    apply LocalViewFacts.loc_updateAdminUI_no_expired in Hs.
    unfold Local.expired in Hs. rewrite Hs. discriminate.
Qed.

Lemma refresh_leaves_no_expired_session_witness :
  Local.getActiveSession (Local.updateAdminUI 600010 overdueState)
  = Some (mkSession "s3" 100 None true 0)
  /\ Local.expired 600010 (mkSession "s3" 100 None true 0) = false
  /\ Local.sessions (Local.updateAdminUI 600010 overdueState)
     = [mkSession "s1" 0 (Some 600010) false 1;
        mkSession "s2" 5 (Some 600010) false 0;
        mkSession "s3" 100 None true 0].
Proof.
  split; [reflexivity|]. split; [|reflexivity].
  exact (proj1 (refresh_leaves_no_expired_session 600010 overdueState)
           (mkSession "s3" 100 None true 0) eq_refl).
Defined.

(** X20.  The chart shows at most seven sessions, with one coffee and one
    tea bar for each; in every state reached from the initial one, with
    fresh session ids, the two bars of a session together are at most its
    totalVotes. *)
Theorem chart_bars_are_bounded_by_the_counters :
  forall acts : list Local.Action,
    Local.freshRun Local.initial acts = true ->
    let st := Local.run Local.initial acts in
    (length (LocalView.recent st) <= 7)%nat
    /\ length (LocalView.dataOf "COFFEE" st) = length (LocalView.recent st)
    /\ length (LocalView.dataOf "TEA" st) = length (LocalView.recent st)
    /\ forall i s c t,
        nth_error (LocalView.recent st) i = Some s ->
        nth_error (LocalView.dataOf "COFFEE" st) i = Some c ->
        nth_error (LocalView.dataOf "TEA" st) i = Some t ->
        0 <= c /\ 0 <= t /\ c + t <= s_totalVotes s.
Proof.
  intros acts Hf st.
  split; [|split; [|split]].
  - unfold LocalView.recent. rewrite length_rev, length_firstn. lia.
  - unfold LocalView.dataOf. apply length_map.
  - unfold LocalView.dataOf. apply length_map.
  - intros i s c t Hs Hc Ht. unfold LocalView.dataOf in Hc, Ht.
    rewrite nth_error_map, Hs in Hc, Ht. injection Hc as <-. injection Ht as <-.
    assert (In s (Local.sessions st)) as Hin.
    { apply nth_error_In in Hs. unfold LocalView.recent in Hs.
      apply in_rev in Hs. now apply In_firstn in Hs. }
    destruct (LocalCounters.loc_run_settled acts Local.initial Hf) as [_ Hc].
    { split; [constructor|intros ? []]. }
    fold st in Hc. rewrite (Hc s Hin).
    pose proof (count_both_le (s_id s) (Local.votes st)). lia.
Qed.

Lemma chart_bars_are_bounded_by_the_counters_witness :
  Local.freshRun Local.initial (firstn 10 demoActions) = true
  /\ LocalView.recent (Local.run Local.initial (firstn 10 demoActions))
     = [mkSession "s1" 0 (Some 9) false 2; mkSession "s2" 20 None true 0]
  /\ LocalView.dataOf "COFFEE" (Local.run Local.initial (firstn 10 demoActions))
     = [1; 0]
  /\ 1 + 1 <= 2.
Proof.
  split; [reflexivity|]. split; [reflexivity|]. split; [reflexivity|].
  destruct (chart_bars_are_bounded_by_the_counters (firstn 10 demoActions)
              eq_refl) as (_ & _ & _ & H).
  exact (proj2 (proj2 (H 0%nat (mkSession "s1" 0 (Some 9) false 2) 1 1
                         eq_refl eq_refl eq_refl))).
Defined.

(** X21.  The history lists exactly the sessions that are not active, in
    their order; in every state reached from the initial one, with fresh
    session ids, the totalVotes shown in a row is the number of votes in
    its detail row, and its coffee and tea counts together are at most
    that number. *)
Theorem history_rows_match_the_votes :
  (forall st : Local.State,
      map LocalView.row_session (LocalView.historyRows st)
      = filter (fun s => negb (s_isActive s)) (Local.sessions st))
  /\ (forall acts : list Local.Action,
      Local.freshRun Local.initial acts = true ->
      forall row,
        In row (LocalView.historyRows (Local.run Local.initial acts)) ->
        LocalView.row_totalVotes row
        = Z.of_nat (length (LocalView.row_votes row))
        /\ LocalView.row_coffee row + LocalView.row_tea row
           <= LocalView.row_totalVotes row).
Proof.
  split.
  - intros st. unfold LocalView.historyRows. rewrite map_map. simpl.
    apply map_id.
  - intros acts Hf row Hrow. unfold LocalView.historyRows in Hrow.
    apply in_map_iff in Hrow as (s & <- & Hs).
    apply filter_In in Hs as [Hs _].
    cbn [LocalView.row_totalVotes LocalView.row_votes LocalView.row_coffee
         LocalView.row_tea].
    destruct (LocalCounters.loc_run_settled acts Local.initial Hf) as [_ Hc].
    { split; [constructor|intros ? []]. }
    rewrite (Hc s Hs). unfold votesFor, sessionVotes. split; [reflexivity|].
    apply countType_le.
Qed.

Lemma history_rows_match_the_votes_witness :
  Local.freshRun Local.initial (firstn 10 demoActions) = true
  /\ LocalView.historyRows (Local.run Local.initial (firstn 10 demoActions))
     = [LocalView.mkHistoryRow (mkSession "s1" 0 (Some 9) false 2) 2 1 1
          [mkVote "v1" "s1" "e1" (Some "Ann") "COFFEE" 3;
           mkVote "v2" "s1" "e1" (Some "Ann") "TEA" 4]]
  /\ 2 = Z.of_nat 2.
Proof.
  split; [reflexivity|]. split; [reflexivity|].
  refine (proj1 (proj2 history_rows_match_the_votes (firstn 10 demoActions)
                   eq_refl
                   (LocalView.mkHistoryRow (mkSession "s1" 0 (Some 9) false 2)
                      2 1 1
                      [mkVote "v1" "s1" "e1" (Some "Ann") "COFFEE" 3;
                       mkVote "v2" "s1" "e1" (Some "Ann") "TEA" 4]) _)).
  vm_compute. auto.
Defined.

(** X22.  In the local application a login in ADMIN mode succeeds exactly
    with the id oe10, whatever the users collection holds; a login in
    EMPLOYEE mode with the code of a stored user logs in as that user,
    whatever its role and whatever name is typed, and stores nothing. *)
Theorem local_login_modes :
  (forall (st : Local.State) (id name uuid : string) (now : Z),
      truthy (Some id) = true ->
      Local.loginMode st = "ADMIN" ->
      (id = "oe10" ->
       fst (Local.handleLogin id name uuid now st)
       = Local.LoggedIn Local.ADMIN_USER)
      /\ (id <> "oe10" ->
          Local.handleLogin id name uuid now st = (Local.LoginError, st)))
  /\ (forall (st : Local.State) (id name uuid : string) (now : Z) (u : User),
      truthy (Some id) = true ->
      String.eqb (Local.loginMode st) "ADMIN" = false ->
      find (fun x => String.eqb (u_employeeId x) id) (Local.users st)
      = Some u ->
      fst (Local.handleLogin id name uuid now st) = Local.LoggedIn u
      /\ Local.user (snd (Local.handleLogin id name uuid now st)) = Some u
      /\ Local.users (snd (Local.handleLogin id name uuid now st))
         = Local.users st).
Proof.
  split.
  - intros st id name uuid now Hid Hm. unfold Local.handleLogin.
    rewrite Hid, Hm. cbn [negb String.eqb Ascii.eqb Bool.eqb]. split.
    + intros ->. reflexivity.
    + intros Hne. apply String.eqb_neq in Hne. now rewrite Hne.
  - intros st id name uuid now u Hid Hm Hu. unfold Local.handleLogin.
    rewrite Hid, Hm, Hu. cbn [negb isSome andb fst snd].
    split; [reflexivity|]. split.
    + apply (LocalFacts.navigate_closed (fun s => Local.user s = Some u));
        [intros s; apply LocalViewFacts.loc_endActive_user|reflexivity].
    + now rewrite LocalLogin.loc_navigate_users.
Qed.

Lemma local_login_modes_witness :
  Local.handleLogin "ADM001" "Mallory" "u9" 5 demoState
  = (Local.LoggedIn Local.ADMIN_USER,
     Local.setUser (Some Local.ADMIN_USER) demoState)
  /\ Local.handleLogin "ADM001" "" "u9" 5 (Local.setLoginMode "ADMIN" demoState)
     = (Local.LoginError, Local.setLoginMode "ADMIN" demoState)
  /\ fst (Local.handleLogin "ADM001" "Mallory" "u9" 5 demoState)
     = Local.LoggedIn Local.ADMIN_USER.
Proof.
  split; [reflexivity|]. split.
  - apply (proj1 local_login_modes (Local.setLoginMode "ADMIN" demoState)
             "ADM001" "" "u9" 5 eq_refl eq_refl).
    discriminate.
  - exact (proj1 (proj2 local_login_modes demoState "ADM001" "Mallory" "u9" 5
                    Local.ADMIN_USER eq_refl eq_refl eq_refl)).
Defined.
